(** * feincmstools: template resolution, registration and rendering

    A shallow embedding of the parts of [feincmstools] that decide how a
    content chunk finds its template, how content types are merged across
    regions before they are registered with FeinCMS, and how chunks render.

    Conventions of the embedding.
    - A Python class is a tree: its qualified name, its [_meta] options and
      the list [__bases__], each base again a class.  The class graph of a
      Python program is acyclic, and every function below only ever walks
      [__bases__] downwards, so the tree unfolding loses nothing; a diamond
      ancestor simply occurs once per path that reaches it.  Two class
      objects are the same class when their trees are equal.
    - A generator is the finite list of the values it yields, in order.
    - A call that can raise returns a [result]; calls into the template
      backend are recorded in a trace so that their order can be stated. *)

From Stdlib Require Import String Ascii ZArith.
From stdpp Require Import gmap strings list.

#[local] Set Warnings "-clear-no-such-hyp".

Local Open Scope string_scope.
Local Open Scope list_scope.
Local Open Scope stdpp_scope.

(** ** Classes *)

(** The part of Django's [Options] ([klass._meta]) that the code reads.
    [model_name] is the attribute called [module_name] before Django 1.7;
    [_template_params] reads whichever of the two exists. *)
Record meta : Type := Meta {
  app_label : string;
  model_name : string;
  abstract : bool
}.

#[global] Instance meta_eq_dec : EqDecision meta.
Proof. solve_decision. Defined.

#[local] Unset Elimination Schemes.
Inductive klass : Type :=
| Klass (cls_module : string) (cls_name : string) (cls_meta : meta)
        (cls_bases : list klass).
#[local] Set Elimination Schemes.

Definition __module__ (k : klass) : string :=
  match k with Klass m _ _ _ => m end.
Definition __name__ (k : klass) : string :=
  match k with Klass _ n _ _ => n end.
Definition _meta (k : klass) : meta :=
  match k with Klass _ _ me _ => me end.
Definition __bases__ (k : klass) : list klass :=
  match k with Klass _ _ _ bs => bs end.

(** Class identity, decided on the tree. *)
Fixpoint klass_eqb (a b : klass) : bool :=
  match a, b with
  | Klass m1 n1 me1 bs1, Klass m2 n2 me2 bs2 =>
      (fix all2 (l1 l2 : list klass) : bool :=
         match l1, l2 with
         | [], [] => true
         | x :: l1', y :: l2' => klass_eqb x y && all2 l1' l2'
         | _, _ => false
         end) bs1 bs2
      && bool_decide (n1 = n2) && bool_decide (m1 = m2)
      && bool_decide (me1 = me2)
  end.

(** The classes every hierarchy ends in. *)
Definition object_ : klass :=
  Klass "__builtin__" "object" (Meta "" "" false) [].
Definition Model : klass :=
  Klass "django.db.models.base" "Model" (Meta "" "" false) [object_].

(** [class Content(models.Model)], abstract. *)
Definition Content : klass :=
  Klass "feincmstools.base" "Content" (Meta "feincmstools" "content" true) [Model].

(** [issubclass(k, c)]: [c] is [k] or is reached from [k] through bases. *)
Fixpoint issubclass (k c : klass) : bool :=
  klass_eqb k c
  || match k with
     | Klass _ _ _ bs =>
         (fix any (l : list klass) : bool :=
            match l with
            | [] => false
            | b :: l' => issubclass b c || any l'
            end) bs
     end.

(** ** Hierarchy walker ([Content._bases_that_are_content_types]) *)

(** The guard of both loops:
    [issubclass(base, Content) and base != Content]. *)
Definition is_content_base (base : klass) : bool :=
  issubclass base Content && negb (klass_eqb base Content).

(** Two loops over [klass.__bases__]: the first yields the bases that pass
    the guard, the second yields, for each such base, what the recursive
    call on it yields. *)
Fixpoint _bases_that_are_content_types (klass0 : klass) : list klass :=
  match klass0 with
  | Klass _ _ _ bases =>
      (fix loop1 (l : list klass) : list klass :=
         match l with
         | [] => []
         | base :: l' =>
             if is_content_base base then base :: loop1 l' else loop1 l'
         end) bases
      ++
      (fix loop2 (l : list klass) : list klass :=
         match l with
         | [] => []
         | base :: l' =>
             (if is_content_base base
              then _bases_that_are_content_types base
              else [])
             ++ loop2 l'
         end) bases
  end.

(** ** Effects: exceptions and the template backend *)

Inductive exn : Type :=
| NotImplementedError (msg : string)
| KeyError (key : string)
| ImportError (msg : string)
| AttributeError (msg : string)
| ImproperlyConfigured (msg : string)
| RuntimeError (msg : string).

Inductive result (A : Type) : Type :=
| Return (a : A)
| Raise (e : exn).
Arguments Return {A} a.
Arguments Raise {A} e.

(** Calls that leave the process: [get_template], [render_to_string] and
    the chunk's optional [extra_context] hook. *)
Inductive event : Type :=
| GetTemplate (path : string)
| ExtraContext
| RenderToString (template : string).

(** A computation together with the backend calls it made, oldest first. *)
Definition traced (A : Type) : Type := (list event * A)%type.

Definition tret {A} (a : A) : traced A := ([], a).
Definition tbind {A B} (m : traced A) (k : A -> traced B) : traced B :=
  let '(t1, a) := m in let '(t2, b) := k a in (t1 ++ t2, b).
Definition emit (e : event) : traced unit := ([e], tt).
Definition trace_of {A} (m : traced A) : list event := fst m.
Definition value_of {A} (m : traced A) : A := snd m.

Notation "'let*' x ':=' m 'in' k" := (tbind m (fun x => k))
  (at level 10, x pattern, m at level 100, k at level 200).

Inductive request : Type := HttpRequest (path : string).

(** What a rendering context binds a name to: the chunk being rendered, or
    some other value. *)
Inductive ctx_value : Type :=
| VSelf
| VStr (s : string).

(** The template backend: which paths [get_template] loads (the others
    raise [TemplateDoesNotExist]) and what [render_to_string] produces. *)
Record backend : Type := Backend {
  template_exists : string -> bool;
  render_to_string : string -> gmap string ctx_value -> request -> string
}.

(** Python truthiness of a value that is [None] or a string. *)
Definition truthy (o : option string) : bool :=
  match o with
  | None => false
  | Some s => negb (bool_decide (s = ""))
  end.

(** [str(x)] as [%s] renders it, for a value that is [None] or a string. *)
Definition percent_s (o : option string) : string :=
  match o with
  | None => "None"
  | Some s => s
  end.

(** ** Template path resolver *)

Record template_params : Type := TemplateParams {
  content_type_defining_app : string;
  content_model_name : string;
  content_type_using_app : string;
  content_type_using_model : string;
  content_type_using_region : option string
}.

Definition _template_params (klass0 base : klass) (region : option string)
  : template_params :=
  {| content_type_defining_app := app_label (_meta base);
     content_model_name := model_name (_meta base);
     content_type_using_app := app_label (_meta klass0);
     content_type_using_model := model_name (_meta klass0);
     content_type_using_region := region |}.

(** The four render patterns and the admin pattern, applied with [%]. *)
Definition pt_prefix (p : template_params) : string :=
  "content_types/" +:+ content_type_defining_app p +:+ "/"
  +:+ content_model_name p +:+ "/".

Definition pt1 (p : template_params) : string :=
  pt_prefix p +:+ content_type_using_app p +:+ "_"
  +:+ content_type_using_model p +:+ "_"
  +:+ percent_s (content_type_using_region p) +:+ ".html".
Definition pt2 (p : template_params) : string :=
  pt_prefix p +:+ content_type_using_model p +:+ "_"
  +:+ percent_s (content_type_using_region p) +:+ ".html".
Definition pt3 (p : template_params) : string :=
  pt_prefix p +:+ percent_s (content_type_using_region p) +:+ ".html".
Definition pt4 (p : template_params) : string :=
  pt_prefix p +:+ "render.html".
Definition pt_admin (p : template_params) : string :=
  pt_prefix p +:+ "admin_init.html".

(** A content chunk instance.  [cls] is [type(self)]; [render_template] and
    [admin_template] are what attribute lookup on the instance gives: the
    instance attribute once [__init__] has assigned it, the class attribute
    (default [None]) before. *)
Record chunk : Type := Chunk {
  cls : klass;
  region : string;
  render_template : option string;
  admin_template : option string;
  extra_context : option (request -> gmap string ctx_value);
  _feincms_content_class : option klass;
  (** the attribute [__init__] tests with [hasattr]; nothing sets it *)
  attr___templates_initialised : bool;
  (** the attribute [__init__] sets, under its mangled name *)
  attr__Content__templates_initialised : bool
}.

Definition _render_template_paths (self : chunk) (region0 : string)
  : list string :=
  let klass0 := cls self in
  (fix loop (bases : list klass) : list string :=
     match bases with
     | [] => []
     | base :: bases' =>
         let params := _template_params klass0 base (Some region0) in
         pt1 params :: pt2 params :: pt3 params :: pt4 params :: loop bases'
     end) (_bases_that_are_content_types klass0).

Definition _admin_template_paths (self : chunk) : list string :=
  let klass0 := cls self in
  (fix loop (bases : list klass) : list string :=
     match bases with
     | [] => []
     | base :: bases' =>
         pt_admin (_template_params klass0 base None) :: loop bases'
     end) (_bases_that_are_content_types klass0).

(** [get_template(path)] succeeds or raises [TemplateDoesNotExist]. *)
Definition _detect_template (be : backend) (path : string)
  : traced (option string) :=
  let* _ := emit (GetTemplate path) in
  tret (if template_exists be path then Some path else None).

(** [for p in paths: if Content._detect_template(p): return p]; falling off
    the end of the loop returns [None].  The generator is consumed only as
    far as the loop runs. *)
Fixpoint find_first_template (be : backend) (paths : list string)
  : traced (option string) :=
  match paths with
  | [] => tret None
  | p :: paths' =>
      let* found := _detect_template be p in
      if truthy found then tret (Some p) else find_first_template be paths'
  end.

Definition _find_render_template_path (be : backend) (self : chunk)
    (region0 : string) : traced (option string) :=
  find_first_template be (_render_template_paths self region0).

Definition _find_admin_template_path (be : backend) (self : chunk)
  : traced (option string) :=
  find_first_template be (_admin_template_paths self).

(** ** Rendering dispatcher ([Content.render], [Content.__init__]) *)

(** The [context] keyword argument: a plain dict, or a Django [Context],
    which has a [flatten] method returning its bindings as a dict. *)
Record py_context : Type := PyContext {
  has_flatten : bool;
  items : gmap string ctx_value
}.

Record render_kwargs : Type := RenderKwargs {
  kw_request : option request;
  kw_context : option py_context
}.

(** [context.flatten()]: the bindings of a [Context], as a dict. *)
Definition flatten (bindings : gmap string ctx_value)
  : gmap string ctx_value := bindings.

(** The double quote, which the error message puts around each path. *)
Definition dquote : string := String (ascii_of_nat 34) "".

(** [a or b] where [b] is a call: [b] runs only when [a] is falsy. *)
Definition or_else (a : option string) (b : traced (option string))
  : traced (option string) :=
  if truthy a then tret a else b.

Definition no_template_message (self : chunk) : string :=
  "No template found for rendering " +:+ __name__ (cls self)
  +:+ " content. I tried [" +:+ dquote
  +:+ String.concat (dquote +:+ ", " +:+ dquote)
        (_render_template_paths self (region self))
  +:+ dquote +:+ "].".

Definition render (be : backend) (self : chunk) (kwargs : render_kwargs)
  : traced (result string) :=
  let* template :=
    or_else (render_template self)
            (_find_render_template_path be self (region self)) in
  if negb (truthy template) then
    tret (Raise (NotImplementedError (no_template_message self)))
  else
    (* Request is required, throw a KeyError if it's not there *)
    match kw_request kwargs with
    | None => tret (Raise (KeyError "request"))
    | Some request0 =>
        let context := default (PyContext false ∅) (kw_context kwargs) in
        let bindings := <["content" := VSelf]> (items context) in
        let* bindings :=
          match extra_context self with
          | Some hook =>
              let* _ := emit ExtraContext in
              (* dict.update: the hook's bindings replace existing ones *)
              tret (hook request0 ∪ bindings)
          | None => tret bindings
          end in
        (* render_to_string expects a dictionary, not a context *)
        let bindings :=
          if has_flatten context then flatten bindings else bindings in
        let template0 := default "" template in
        let* _ := emit (RenderToString template0) in
        tret (Return (render_to_string be template0 bindings request0))
    end.

(** [Content.__init__], after [Model.__init__] has run.  [includes] is the
    attribute [feincms_item_editor_includes] of the owning document's
    content class, [None] while the class does not have it. *)
Definition __init__ (be : backend) (self : chunk)
    (includes : option (gmap string (gset string)))
  : traced (chunk * option (gmap string (gset string))) :=
  let* (self, includes) :=
    if attr___templates_initialised self then tret (self, includes)
    else
      let parent_class := _feincms_content_class self in
      let* rt :=
        or_else (render_template self)
                (_find_render_template_path be self (region self)) in
      let* at0 :=
        or_else (admin_template self) (_find_admin_template_path be self) in
      let self :=
        {| cls := cls self; region := region self;
           render_template := rt; admin_template := at0;
           extra_context := extra_context self;
           _feincms_content_class := parent_class;
           attr___templates_initialised := attr___templates_initialised self;
           attr__Content__templates_initialised :=
             attr__Content__templates_initialised self |} in
      match parent_class, truthy at0 with
      | Some _, true =>
          let inc := default ∅ includes in
          let head := default ∅ (inc !! "head") in
          tret (self, Some (<["head" := {[default "" at0]} ∪ head]> inc))
      | _, _ => tret (self, includes)
      end in
  tret ({| cls := cls self; region := region self;
           render_template := render_template self;
           admin_template := admin_template self;
           extra_context := extra_context self;
           _feincms_content_class := _feincms_content_class self;
           attr___templates_initialised := attr___templates_initialised self;
           attr__Content__templates_initialised := true |},
        includes).

(** A chunk as [Model.__init__] leaves it: the template attributes still
    read the class attributes. *)
Definition new_chunk (klass0 : klass) (region0 : string)
    (class_render_template class_admin_template : option string)
    (parent_class : option klass) : chunk :=
  {| cls := klass0; region := region0;
     render_template := class_render_template;
     admin_template := class_admin_template;
     extra_context := None;
     _feincms_content_class := parent_class;
     attr___templates_initialised := false;
     attr__Content__templates_initialised := false |}.

(** ** Region / content-type registrar ([create_content_types]) *)

Record region_descriptor : Type := Region {
  key : string;
  title : string;
  inherited : bool
}.

(** Extra keyword arguments for [create_content_type]. *)
Definition py_kwargs : Type := list (string * string).

(** An element of a category's list of types: the type itself, or a pair
    (type, kwargs), which the loop recognises with [isinstance]. *)
Inductive type_entry : Type :=
| BareType (type0 : klass)
| TypeWithKwargs (type0 : klass) (kwargs : py_kwargs).

(** What [content_types_by_region] returns for one region. *)
Definition category_types : Type := list (option string * list type_entry).

(** The value stored per type: [(category, set_of_regions, kwargs)]. *)
Definition registration : Type :=
  (option string * gset string * py_kwargs)%type.

(** [types_to_register], an [OrderedDict] keyed by the type: the items in
    insertion order, at most one per key. *)
Definition ordered_dict : Type := list (klass * registration).

Module OrderedDict.

(** [key in d] *)
Fixpoint contains (d : ordered_dict) (k : klass) : bool :=
  match d with
  | [] => false
  | (k', _) :: d' => klass_eqb k' k || contains d' k
  end.

(** [d.get(key)] *)
Fixpoint get (d : ordered_dict) (k : klass) : option registration :=
  match d with
  | [] => None
  | (k', v) :: d' => if klass_eqb k' k then Some v else get d' k
  end.

(** [d[key] = value]: an existing key keeps its place, a new key goes
    last. *)
Fixpoint setitem (d : ordered_dict) (k : klass) (v : registration)
  : ordered_dict :=
  match d with
  | [] => [(k, v)]
  | (k', v') :: d' =>
      if klass_eqb k' k then (k', v) :: d' else (k', v') :: setitem d' k v
  end.

(** [d[key][1].add(region)]: the set inside the stored tuple is updated
    in place.  The loop only runs this on a key that is present. *)
Fixpoint add_region (d : ordered_dict) (k : klass) (r : string)
  : ordered_dict :=
  match d with
  | [] => []
  | (k', (category, regions, kwargs)) :: d' =>
      if klass_eqb k' k
      then (k', (category, {[r]} ∪ regions, kwargs)) :: d'
      else (k', (category, regions, kwargs)) :: add_region d' k r
  end.

End OrderedDict.

(** The body of the innermost loop. *)
Definition register_entry (region0 : string) (category : option string)
    (types_to_register : ordered_dict) (entry : type_entry) : ordered_dict :=
  let '(type0, kwargs) :=
    match entry with
    | BareType t => (t, [])
    | TypeWithKwargs t kw => (t, kw)
    end in
  let types_to_register :=
    if negb (OrderedDict.contains types_to_register type0)
    then OrderedDict.setitem types_to_register type0 (category, ∅, kwargs)
    else types_to_register in
  OrderedDict.add_region types_to_register type0 region0.

(** The three nested loops over regions, categories and types. *)
Definition merge_types (types_by_regions : list (string * category_types))
  : ordered_dict :=
  foldl (fun d '(region0, cats) =>
           foldl (fun d '(category, types) =>
                    foldl (register_entry region0 category) d types)
                 d cats)
        [] types_by_regions.

(** What a module attribute is bound to. *)
Inductive py_object : Type :=
| ClassObject (k : klass)
| NoneObject
| OtherObject (repr : string).

(** The document model handed to [create_content_types].  [class_name_hook]
    is its attribute [_get_content_type_class_name], [None] when the model
    has no such attribute ([hasattr] is false). *)
Record document_model : Type := DocumentModel {
  doc_class : klass;
  _feincms_all_regions : list region_descriptor;
  class_name_hook : option (klass -> option string)
}.

Module FeinCMSDocument.

(** The default hook.  [USE_LEGACY_TABLE_NAMES] is read from
    [feincmstools.settings]; when it is off the method falls off its end
    and returns [None]. *)
Definition _get_content_type_class_name (USE_LEGACY_TABLE_NAMES : bool)
    (cls0 content_type : klass) : option string :=
  if USE_LEGACY_TABLE_NAMES
  then Some (__name__ cls0 +:+ __name__ content_type)
  else None.

Definition model (USE_LEGACY_TABLE_NAMES : bool) (cls0 : klass)
    (regions : list region_descriptor) : document_model :=
  {| doc_class := cls0;
     _feincms_all_regions := regions;
     class_name_hook :=
       Some (_get_content_type_class_name USE_LEGACY_TABLE_NAMES cls0) |}.

End FeinCMSDocument.

Section Registrar.

(** FeinCMS, the host framework: its state and its
    [create_content_type(model, regions, class_name, optgroup, **kwargs)]
    class method.  A call returns the new concrete class, or returns
    [None] (FeinCMS declines with a warning when the name is taken), or
    raises; in each case the host is left in some state. *)
Variable host : Type.
Variable create_content_type :
  host -> klass -> klass -> gset string -> option string ->
  option string -> py_kwargs -> host * result (option klass).

(** One pass of the second loop: create the type, then bind it in the
    module of the document class unless the name is taken.  The result is
    the state the pass leaves behind, the host and the module as they then
    are, and whether the pass completed or raised.  Reading [__name__] of
    [None] raises [AttributeError]. *)
Definition materialize (feincms_model : document_model)
    (h : host) (module : gmap string py_object)
    (item : klass * registration)
  : (host * gmap string py_object) * result unit :=
  let '(type0, (option_group, regions, kwargs)) := item in
  let class_name :=
    match class_name_hook feincms_model with
    | Some hook => hook type0
    | None => None
    end in
  let '(h', created) :=
    create_content_type h (doc_class feincms_model) type0 regions
      class_name option_group kwargs in
  match created with
  | Raise e => ((h', module), Raise e)
  | Return None =>
      ((h', module),
       Raise (AttributeError
                "'NoneType' object has no attribute '__name__'"))
  | Return (Some new_content_type) =>
      match module !! __name__ new_content_type with
      | None =>
          ((h', <[__name__ new_content_type
                  := ClassObject new_content_type]> module),
           Return tt)
      | Some _ => ((h', module), Return tt)
      end
  end.

Fixpoint materialize_all (feincms_model : document_model)
    (h : host) (module : gmap string py_object)
    (items : ordered_dict)
  : (host * gmap string py_object) * result unit :=
  match items with
  | [] => ((h, module), Return tt)
  | item :: items' =>
      match materialize feincms_model h module item with
      | (state, Raise e) => (state, Raise e)
      | ((h', module'), Return _) =>
          materialize_all feincms_model h' module' items'
      end
  end.

(** [module] is [sys.modules[feincms_model.__module__]]. *)
Definition create_content_types (feincms_model : document_model)
    (content_types_by_region_fn : string -> category_types)
    (h : host) (module : gmap string py_object)
  : (host * gmap string py_object) * result unit :=
  let types_by_regions :=
    map (fun r => (key r, content_types_by_region_fn (key r)))
        (_feincms_all_regions feincms_model) in
  let types_to_register := merge_types types_by_regions in
  materialize_all feincms_model h module types_to_register.

End Registrar.

(** ** View-backed content ([ViewContent]) *)

(** [s.rfind(c)]: the index of the last occurrence of [c], or -1. *)
Fixpoint rfind_from (s : string) (c : ascii) (i last : Z) : Z :=
  match s with
  | EmptyString => last
  | String a s' =>
      rfind_from s' c (i + 1) (if Ascii.eqb a c then i else last)
  end.
Definition rfind (s : string) (c : ascii) : Z := rfind_from s c 0 (-1).

(** A slice bound as Python clamps it: negative indices count from the
    end. *)
Definition slice_index (s : string) (i : Z) : Z :=
  let n := Z.of_nat (String.length s) in
  if (i <? 0)%Z then Z.max 0 (n + i) else Z.min i n.

(** [s[:i]] and [s[i:]] *)
Definition slice_to (s : string) (i : Z) : string :=
  substring 0 (Z.to_nat (slice_index s i)) s.
Definition slice_from (s : string) (i : Z) : string :=
  let start := Z.to_nat (slice_index s i) in
  substring start (String.length s - start) s.

(** What a view returns: an [HttpResponse], whose [content] is extracted;
    anything else, taken to be the content itself; or a response whose
    [content] property raises when it is read (an unrendered template
    response, for instance), [itself] standing for the response object. *)
Inductive response : Type :=
| HttpResponse_ (content : string)
| RawContent (content : string)
| FailingContent (e : exn) (itself : string).

Definition view : Type := option request -> result response.

(** [str(e)] for the exceptions of the model. *)
Definition exn_message (e : exn) : string :=
  match e with
  | NotImplementedError m | KeyError m | ImportError m | AttributeError m
  | ImproperlyConfigured m | RuntimeError m => m
  end.

(** [getattr(response, 'content', response)]: the default is used when
    the attribute is missing, which for [getattr] includes a property that
    raises [AttributeError]; any other exception of the property comes
    out. *)
Definition read_content (r : response) : result string :=
  match r with
  | HttpResponse_ content => Return content
  | RawContent content => Return content
  | FailingContent (AttributeError _) itself => Return itself
  | FailingContent e _ => Raise e
  end.

Module ViewContent.
Section ViewContent.

(** [settings.DEBUG] *)
Variable DEBUG : bool.
(** [import_module(name)]: the module's attributes, or the exception the
    import raised. *)
Variable import_module : string -> result (gmap string view).

Definition get_view_from_path (path : string) : result view :=
  let i := rfind path "."%char in
  let module := slice_to path i in
  let view_name := slice_from path (i + 1) in
  match import_module module with
  | Raise (ImportError e) =>
      Raise (ImproperlyConfigured
               ("Error importing ViewContent module " +:+ module +:+ ": "
                +:+ dquote +:+ e +:+ dquote))
  | Raise e => Raise e
  | Return mod0 =>
      match mod0 !! view_name with
      | None =>
          Raise (ImproperlyConfigured
                   ("Module " +:+ dquote +:+ module +:+ dquote
                    +:+ " does not define a " +:+ dquote +:+ view_name
                    +:+ dquote +:+ " method"))
      | Some view0 => Return view0
      end
  end.

(** [self_view] is the [view] field of the chunk. *)
Definition render (self_view : string) (kwargs : render_kwargs)
  : result string :=
  match get_view_from_path self_view with
  | Raise e =>
      if DEBUG then Raise e
      else Return "<p>Content could not be found.</p>"
  | Return view0 =>
      match view0 (kw_request kwargs) with
      | Raise e =>
          if DEBUG then Raise e
          else Return "<p>Error rendering content.</p>"
      | Return response0 =>
          (* extract response content if it is a HttpResponse object *)
          read_content response0
      end
  end.

End ViewContent.
End ViewContent.

(** ** Hierarchical documents ([get_path]) *)

(** A node of a hierarchical document tree, with the [parent] foreign key
    of the model and the tree fields MPTT maintains. *)
Record page : Type := Page {
  slug : string;
  parent : option positive;
  tree_id : positive;
  lft : positive;
  rght : positive
}.

Module HierarchicalFeinCMSDocument.
Section GetPath.

(** MPTT's [get_ancestors()]: the ancestors of a node. *)
Variable get_ancestors : page -> list page.

Definition get_path (self : page) : string :=
  let page_list := get_ancestors self ++ [self] in
  String.concat "/" (map slug page_list).

End GetPath.
End HierarchicalFeinCMSDocument.

(** The older [HierarchicalLumpyContent] carries the same method. *)
Module HierarchicalLumpyContent.
Section GetPath.

Variable get_ancestors : page -> list page.

Definition get_path (self : page) : string :=
  let page_list := get_ancestors self ++ [self] in
  String.concat "/" (map slug page_list).

End GetPath.
End HierarchicalLumpyContent.

(** ** Legacy documents ([LumpyContent._register]) *)

(** An element of [default_content_types]: a content type, or a pair of a
    content type and the regions it is limited to. *)
Inductive default_content_type : Type :=
| PlainType (content_type : klass)
| TypeWithRegions (content_type : klass) (regions : list string).

(** A [LumpyContent] subclass: the class and its two class attributes.
    [default_regions] holds the regions as [Template('', '', ...)] turns
    them into region objects. *)
Record lumpy_class : Type := LumpyClass {
  lumpy_klass : klass;
  default_regions : list region_descriptor;
  default_content_types : list default_content_type
}.

Module LumpyContent.
Section Register.

(** FeinCMS's [create_content_type(model, **kwargs)], called here with at
    most the keyword [regions].  As for the registrar, a call returns the
    new class, returns [None], or raises, and leaves the host in some
    state. *)
Variable host : Type.
Variable create_content_type :
  host -> klass -> klass -> option (list string) ->
  host * result (option klass).

(** The body of the loop over [default_content_types].  The name of the
    binding is built from the two class names, so whatever the host
    returned is bound, [None] included. *)
Definition register_default (cls0 : lumpy_class) (h : host)
    (module : gmap string py_object) (entry : default_content_type)
  : (host * gmap string py_object) * result unit :=
  let '(content_type, regions_kwarg) :=
    match entry with
    | PlainType t => (t, None)
    | TypeWithRegions t regions => (t, Some regions)
    end in
  let '(h', created) :=
    create_content_type h (lumpy_klass cls0) content_type regions_kwarg in
  match created with
  | Raise e => ((h', module), Raise e)
  | Return new_content_type =>
      (* make it available in the module for convenience *)
      let name := __name__ (lumpy_klass cls0) +:+ __name__ content_type in
      let value :=
        match new_content_type with
        | Some k => ClassObject k
        | None => NoneObject
        end in
      match module !! name with
      | Some _ => ((h', module), Return tt) (* don't overwrite anything *)
      | None => ((h', <[name := value]> module), Return tt)
      end
  end.

Fixpoint register_defaults (cls0 : lumpy_class) (h : host)
    (module : gmap string py_object) (entries : list default_content_type)
  : (host * gmap string py_object) * result unit :=
  match entries with
  | [] => ((h, module), Return tt)
  | entry :: entries' =>
      match register_default cls0 h module entry with
      | (state, Raise e) => (state, Raise e)
      | ((h', module'), Return _) =>
          register_defaults cls0 h' module' entries'
      end
  end.

(** [all_regions] is the class attribute [_feincms_all_regions], [None]
    while the class does not have it; [module] is
    [sys.modules[cls.__module__]].  The result holds the three as the call
    leaves them, and whether it completed or raised. *)
Definition _register (cls0 : lumpy_class)
    (all_regions : option (list region_descriptor)) (h : host)
    (module : gmap string py_object)
  : (option (list region_descriptor) * host * gmap string py_object)
    * result unit :=
  if negb (abstract (_meta (lumpy_klass cls0))) then
    (* concrete subclasses only *)
    let all_regions := Some (default_regions cls0) in
    let '((h', module'), outcome) :=
      register_defaults cls0 h module (default_content_types cls0) in
    ((all_regions, h', module'), outcome)
  else ((all_regions, h, module), Return tt).

End Register.
End LumpyContent.

(** ** Used content types ([FeinCMSDocument.get_used_content_types]) *)

(** A Python [set] of classes: its elements, each once.  The order of the
    list has no meaning. *)
Definition class_set : Type := list klass.

(** The outcome of an operation that hashes its elements: the value, or
    [TypeError: unhashable type] when an element has no hash. *)
Inductive hashed (A : Type) : Type :=
| Hashed (a : A)
| Unhashable.
Arguments Hashed {A} a.
Arguments Unhashable {A}.

Definition set_add (r : class_set) (t : klass) : class_set :=
  if existsb (fun x => klass_eqb x t) r then r else r ++ [t].

(** [r.union(types)]: every element of [types] is hashed and added.  A
    class has a hash; a pair of a class and a kwargs dict has none, because
    the dict has none. *)
Fixpoint set_union (r : class_set) (types : list type_entry)
  : hashed class_set :=
  match types with
  | [] => Hashed r
  | BareType t :: types' => set_union (set_add r t) types'
  | TypeWithKwargs _ _ :: _ => Unhashable
  end.

Module UsedContentTypes.

(** [cls._get_content_types_by_region()] *)
Definition _get_content_types_by_region (feincms_model : document_model)
    (content_types_by_region : string -> category_types)
  : list (string * category_types) :=
  map (fun r => (key r, content_types_by_region (key r)))
      (_feincms_all_regions feincms_model).

(** The inner loop, over the categories of one region. *)
Fixpoint union_categories (r : class_set) (categories : category_types)
  : hashed class_set :=
  match categories with
  | [] => Hashed r
  | (category, types) :: categories' =>
      match set_union r types with
      | Hashed r' => union_categories r' categories'
      | Unhashable => Unhashable
      end
  end.

(** The outer loop, over the regions. *)
Fixpoint union_regions (r : class_set) (lxr : list (string * category_types))
  : hashed class_set :=
  match lxr with
  | [] => Hashed r
  | (reg, categories) :: lxr' =>
      match union_categories r categories with
      | Hashed r' => union_regions r' lxr'
      | Unhashable => Unhashable
      end
  end.

Definition get_used_content_types (feincms_model : document_model)
    (content_types_by_region : string -> category_types)
  : hashed class_set :=
  let lxr :=
    _get_content_types_by_region feincms_model content_types_by_region in
  union_regions [] lxr.

End UsedContentTypes.

(** ** Vocabulary of the statements *)

(** The four candidates built for one ancestor [base] of [klass0], written
    out as the strings they are. *)
Definition render_candidates (klass0 : klass) (region0 : string)
    (base : klass) : list string :=
  let dir := "content_types/" +:+ app_label (_meta base) +:+ "/"
             +:+ model_name (_meta base) +:+ "/" in
  [ dir +:+ app_label (_meta klass0) +:+ "_" +:+ model_name (_meta klass0)
        +:+ "_" +:+ region0 +:+ ".html";
    dir +:+ model_name (_meta klass0) +:+ "_" +:+ region0 +:+ ".html";
    dir +:+ region0 +:+ ".html";
    dir +:+ "render.html" ].

(** What one run of the search loop did and returned. *)
Inductive search_outcome (be : backend) (paths : list string)
  : list event -> option string -> Prop :=
| SearchHit (before after : list string) (p : string) :
    paths = before ++ p :: after ->
    Forall (fun q => template_exists be q = false) before ->
    template_exists be p = true ->
    search_outcome be paths (map GetTemplate (before ++ [p])) (Some p)
| SearchMiss :
    Forall (fun q => template_exists be q = false) paths ->
    search_outcome be paths (map GetTemplate paths) None.


(** The backend was asked to render during the run. *)
Definition delegated (t : list event) : Prop :=
  exists template, RenderToString template ∈ t.

(** One declaration of a type: the region and category it is listed under,
    and the kwargs listed with it (none for a bare type). *)
Record declaration : Type := Declaration {
  decl_region : string;
  decl_category : option string;
  decl_type : klass;
  decl_kwargs : py_kwargs
}.

Definition entry_declaration (region0 : string) (category : option string)
    (entry : type_entry) : declaration :=
  match entry with
  | BareType t => Declaration region0 category t []
  | TypeWithKwargs t kw => Declaration region0 category t kw
  end.

(** All declarations of a registrar input, in the order the loops meet
    them: region by region, category by category, type by type. *)
Definition declarations (types_by_regions : list (string * category_types))
  : list declaration :=
  flat_map (fun '(region0, cats) =>
              flat_map (fun '(category, types) =>
                          map (entry_declaration region0 category) types)
                       cats)
           types_by_regions.

(** The first declaration of [t], and the regions of all of them. *)
Definition first_declaration (decls : list declaration) (t : klass)
  : option declaration :=
  List.find (fun d => klass_eqb (decl_type d) t) decls.

Definition declared_regions (decls : list declaration) (t : klass)
  : gset string :=
  list_to_set
    (map decl_region (List.filter (fun d => klass_eqb (decl_type d) t) decls)).

(** How many items of the registry have key [t]. *)
Definition occurrences (d : ordered_dict) (t : klass) : nat :=
  length (List.filter (fun item => klass_eqb (fst item) t) d).

(** [d[key][1].add(r)] on the stored tuple. *)
Definition with_region (r : string) (v : registration) : registration :=
  let '(category, regions, kwargs) := v in (category, {[r]} ∪ regions, kwargs).

(** The loop body on one declaration. *)
Definition register_declaration (d : ordered_dict) (decl : declaration)
  : ordered_dict :=
  let t := decl_type decl in
  OrderedDict.add_region
    (if negb (OrderedDict.contains d t)
     then OrderedDict.setitem d t (decl_category decl, ∅, decl_kwargs decl)
     else d)
    t (decl_region decl).

(** The class name the registrar requests for [content_type]. *)
Definition requested_class_name (feincms_model : document_model)
    (content_type : klass) : option string :=
  match class_name_hook feincms_model with
  | Some hook => hook content_type
  | None => None
  end.

(** The name a class created for [content_type] has when the host names it
    as requested: the requested name, or the content type's own. *)
Definition exposed_name (feincms_model : document_model)
    (content_type : klass) : string :=
  default (__name__ content_type)
    (requested_class_name feincms_model content_type).

(** The classes the host returns when it is asked, item after item, for the
    items of a registry, and its state after the last of them; [None] as
    soon as one call raises or returns no class. *)
Fixpoint host_answers {host : Type}
    (create_content_type :
       host -> klass -> klass -> gset string -> option string ->
       option string -> py_kwargs -> host * result (option klass))
    (feincms_model : document_model) (h : host) (items : ordered_dict)
  : option (list klass * host) :=
  match items with
  | [] => Some ([], h)
  | (type0, (option_group, regions, kwargs)) :: items' =>
      match create_content_type h (doc_class feincms_model) type0 regions
              (requested_class_name feincms_model type0) option_group
              kwargs with
      | (h1, Return (Some new_type)) =>
          match host_answers create_content_type feincms_model h1 items' with
          | Some (news, h') => Some (new_type :: news, h')
          | None => None
          end
      | _ => None
      end
  end.

(** The bindings a run offers to the module: each created class under its
    own name, in the order of creation. *)
Definition created_bindings (news : list klass) : list (string * py_object) :=
  map (fun new_type => (__name__ new_type, ClassObject new_type)) news.

(** Whenever the host returns a class, the class has the requested name, or
    the content type's name when none was requested. *)
Definition host_names_as_requested {host : Type}
    (create_content_type :
       host -> klass -> klass -> gset string -> option string ->
       option string -> py_kwargs -> host * result (option klass)) : Prop :=
  forall h cls0 model0 regions class_name optgroup kwargs h' new_type,
    create_content_type h cls0 model0 regions class_name optgroup kwargs
    = (h', Return (Some new_type)) ->
    __name__ new_type = default (__name__ model0) class_name.

(** The events and the bindings of the last part of [render], for the
    [extra_context] attribute [hook] of the chunk: the hook is called if
    there is one, and its bindings replace those of the same name in the
    caller's context, to which [content] has been added. *)
Definition hook_events (hook : option (request -> gmap string ctx_value))
  : list event :=
  match hook with
  | Some _ => [ExtraContext]
  | None => []
  end.

Definition render_bindings (hook : option (request -> gmap string ctx_value))
    (req : request) (context : option py_context) : gmap string ctx_value :=
  let base :=
    <["content" := VSelf]> (items (default (PyContext false ∅) context)) in
  match hook with
  | Some f => f req ∪ base
  | None => base
  end.

(** An instance after its class has changed: what the instance itself
    stores stays, what attribute lookup takes from the class is replaced,
    namely the class with its bases, the [extra_context] it defines and the
    owning content class. *)
Definition after_class_change (klass1 : klass)
    (hook1 : option (request -> gmap string ctx_value))
    (pc1 : option klass) (self : chunk) : chunk :=
  {| cls := klass1; region := region self;
     render_template := render_template self;
     admin_template := admin_template self;
     extra_context := hook1;
     _feincms_content_class := pc1;
     attr___templates_initialised := attr___templates_initialised self;
     attr__Content__templates_initialised :=
       attr__Content__templates_initialised self |}.

(** ** Examples *)

(** A page text block: [TextBlock(Content)], [RichTextBlock(TextBlock)] and
    the concrete class FeinCMS derives from it for a [Page] document. *)
Definition ex_TextBlock : klass :=
  Klass "cms.models" "TextBlock" (Meta "cms" "textblock" true) [Content].
Definition ex_RichTextBlock : klass :=
  Klass "cms.models" "RichTextBlock" (Meta "cms" "richtextblock" true)
        [ex_TextBlock].
Definition ex_PageRichTextBlock : klass :=
  Klass "site.models" "PageRichTextBlock"
        (Meta "site" "pagerichtextblock" false) [ex_RichTextBlock].

(** A chunk of the concrete class in region [main], as [Model.__init__]
    leaves it, with no template set on the class and no owning document
    content class. *)
Definition ex_chunk : chunk :=
  new_chunk ex_PageRichTextBlock "main" None None None.

Definition ex_render_to_string (template : string)
    (bindings : gmap string ctx_value) (req : request) : string :=
  "<rendered " +:+ template +:+ ">".

(** A backend without any template, and one that holds nothing but the
    [render.html] of [TextBlock]. *)
Definition ex_backend_empty : backend :=
  Backend (fun _ => false) ex_render_to_string.
Definition ex_backend_fallback : backend :=
  Backend (fun q => bool_decide (q = "content_types/cms/textblock/render.html"))
          ex_render_to_string.

Definition ex_request : request := HttpRequest "/about/".

(** Two regions that both list the text block, under different categories
    and with different kwargs. *)
Definition ex_types_by_regions : list (string * category_types) :=
  [ ("main", [ (None, [BareType ex_TextBlock]);
               (Some "Rich", [BareType ex_RichTextBlock]) ]);
    ("sidebar", [ (Some "Text",
                   [TypeWithKwargs ex_TextBlock [("size", "small")]]) ]) ].

(** [str.lower()] on ASCII letters, as Django derives [model_name]. *)
Definition lower_ascii (c : ascii) : ascii :=
  let n := nat_of_ascii c in
  if (65 <=? n)%nat && (n <=? 90)%nat then ascii_of_nat (n + 32) else c.
Fixpoint lower (s : string) : string :=
  match s with
  | EmptyString => EmptyString
  | String c s' => String (lower_ascii c) (lower s')
  end.

(** A stand-in for FeinCMS's [create_content_type], as far as the registrar
    depends on it.  It refuses a model that is not abstract; it declines,
    returning [None], when it has already created a class of that name for
    the document class (FeinCMS finds the related name taken); otherwise
    the new concrete class lives in the module of the document class,
    derives from the content type, and is named [class_name], or like the
    content type when [class_name] is [None].  The host state is the list
    of the classes created so far, [_feincms_content_types]. *)
Definition ex_create_content_type (h : list klass) (cls0 model0 : klass)
    (regions : gset string) (class_name optgroup : option string)
    (kwargs : py_kwargs) : list klass * result (option klass) :=
  let name := default (__name__ model0) class_name in
  if negb (abstract (_meta model0)) then
    (h, Raise (ImproperlyConfigured
                 "Cannot create content type from non-abstract model (yet)."))
  else if existsb (fun k => bool_decide (lower (__name__ k) = lower name)) h
  then (h, Return None)
  else
    let new_type :=
      Klass (__module__ cls0) name
            (Meta (app_label (_meta cls0)) (lower name) false) [model0] in
    (h ++ [new_type], Return (Some new_type)).

(** A document class [Page] with the two regions of the example. *)
Definition ex_Page : klass :=
  Klass "site.models" "Page" (Meta "site" "page" false) [Model].
Definition ex_regions : list region_descriptor :=
  [Region "main" "Main content area" false;
   Region "sidebar" "Sidebar" true].
Definition ex_content_types_by_region (region0 : string) : category_types :=
  default [] (snd <$> List.find (fun rc => bool_decide (fst rc = region0))
                                ex_types_by_regions).

(** An importer that knows one module, [site.views], with a view [latest]
    that fails and a view [hello] that answers. *)
Definition ex_import_module (name : string) : result (gmap string view) :=
  if bool_decide (name = "site.views")
  then Return {[ "latest" := (fun _ => Raise (RuntimeError "boom")) : view;
                 "hello" := (fun _ => Return (HttpResponse_ "<p>Hello</p>"))
                            : view ]}
  else Raise (ImportError ("No module named " +:+ name)).

(** ** Further vocabulary *)

(** [x] is reached from [k] by one or more steps along [__bases__]. *)
Inductive proper_ancestor : klass -> klass -> Prop :=
| ancestor_base (k b : klass) :
    b ∈ __bases__ k -> proper_ancestor k b
| ancestor_step (k b x : klass) :
    b ∈ __bases__ k -> proper_ancestor b x -> proper_ancestor k x.

(** The admin candidate built for one ancestor. *)
Definition admin_candidate (base : klass) : string :=
  "content_types/" +:+ app_label (_meta base) +:+ "/"
  +:+ model_name (_meta base) +:+ "/admin_init.html".

(** A diamond below [TextBlock]: two content types that derive from it and
    a concrete class that derives from both. *)
Definition ex_PlainTextBlock : klass :=
  Klass "cms.models" "PlainTextBlock" (Meta "cms" "plaintextblock" true)
        [ex_TextBlock].
Definition ex_MixedBlock : klass :=
  Klass "site.models" "MixedBlock" (Meta "site" "mixedblock" false)
        [ex_RichTextBlock; ex_PlainTextBlock].

(** The set that [feincms_item_editor_includes] holds under [head], empty
    while the attribute or the key is missing. *)
Definition head_includes (includes : option (gmap string (gset string)))
  : gset string :=
  default ∅ (default ∅ includes !! "head").

(** A chunk like [ex_chunk] whose class defines [extra_context]: the hook
    binds [teaser] and rebinds [content]. *)
Definition ex_chunk_with_hook : chunk :=
  {| cls := ex_PageRichTextBlock; region := "main";
     render_template := Some "blocks/rich.html"; admin_template := None;
     extra_context :=
       Some (fun _ => {[ "teaser" := VStr "short"; "content" := VStr "other" ]});
     _feincms_content_class := None;
     attr___templates_initialised := false;
     attr__Content__templates_initialised := true |}.

(** The elements of [l] in order, each kept where it first occurs. *)
Fixpoint first_occurrences (l : list klass) : list klass :=
  match l with
  | [] => []
  | x :: l' =>
      x :: List.filter (fun y => negb (klass_eqb y x)) (first_occurrences l')
  end.




(** What a failed call leaves the registrar with: the exception the host
    raised, or the [AttributeError] of reading [__name__] of [None]. *)
Definition failure_of (answer : result (option klass)) : option exn :=
  match answer with
  | Raise e => Some e
  | Return None =>
      Some (AttributeError "'NoneType' object has no attribute '__name__'")
  | Return (Some _) => None
  end.

(** A second class called [TextBlock], from another application. *)
Definition ex_BlogTextBlock : klass :=
  Klass "blog.models" "TextBlock" (Meta "blog" "textblock" true) [Content].
Definition ex_clashing_types (region0 : string) : category_types :=
  [ (None, [BareType ex_TextBlock; BareType ex_BlogTextBlock;
            BareType ex_RichTextBlock]) ].

(** [s] has no dot. *)
Definition no_dot (s : string) : Prop :=
  "."%char ∉ list_ascii_of_string s.

(** [s[:-1]]: a string without its last character. *)
Definition all_but_last (s : string) : string :=
  substring 0 (String.length s - 1) s.

(** What [get_view_from_path] does once the path is cut into a module name
    and a view name: import the module, then read the attribute. *)
Definition lookup_view
    (import_module : string -> result (gmap string view))
    (module view_name : string) : result view :=
  match import_module module with
  | Raise (ImportError e) =>
      Raise (ImproperlyConfigured
               ("Error importing ViewContent module " +:+ module +:+ ": "
                +:+ dquote +:+ e +:+ dquote))
  | Raise e => Raise e
  | Return mod0 =>
      match mod0 !! view_name with
      | None =>
          Raise (ImproperlyConfigured
                   ("Module " +:+ dquote +:+ module +:+ dquote
                    +:+ " does not define a " +:+ dquote +:+ view_name
                    +:+ dquote +:+ " method"))
      | Some view0 => Return view0
      end
  end.

(** The content type of an element of [default_content_types]. *)
Definition default_entry_type (entry : default_content_type) : klass :=
  match entry with
  | PlainType t => t
  | TypeWithRegions t _ => t
  end.

(** The name under which the legacy registration binds what the host
    returned for an element of [default_content_types]. *)
Definition legacy_name (cls0 : lumpy_class) (entry : default_content_type)
  : string :=
  __name__ (lumpy_klass cls0) +:+ __name__ (default_entry_type entry).

(** What the host returns when it is asked, entry after entry, for the
    default content types, and its state after the last of them; [None] as
    soon as one call raises. *)
Fixpoint legacy_answers {host : Type}
    (create_content_type :
       host -> klass -> klass -> option (list string) ->
       host * result (option klass))
    (cls0 : lumpy_class) (h : host) (entries : list default_content_type)
  : option (list (option klass) * host) :=
  match entries with
  | [] => Some ([], h)
  | entry :: entries' =>
      match create_content_type h (lumpy_klass cls0)
              (default_entry_type entry)
              (match entry with
               | PlainType _ => None
               | TypeWithRegions _ regions => Some regions
               end) with
      | (h1, Return answer) =>
          match legacy_answers create_content_type cls0 h1 entries' with
          | Some (answers, h') => Some (answer :: answers, h')
          | None => None
          end
      | (_, Raise _) => None
      end
  end.

(** The bindings the legacy registration offers to the module: for each
    entry, what the host returned for it, under the entry's name. *)
Definition legacy_bindings (cls0 : lumpy_class)
    (entries : list default_content_type) (answers : list (option klass))
  : list (string * py_object) :=
  zip_with (fun entry answer =>
              (legacy_name cls0 entry,
               match answer with
               | Some k => ClassObject k
               | None => NoneObject
               end))
           entries answers.

(** A stand-in for FeinCMS as the legacy code calls it, with no class name
    requested. *)
Definition ex_legacy_create_content_type (h : list klass)
    (cls0 model0 : klass) (regions : option (list string))
  : list klass * result (option klass) :=
  ex_create_content_type h cls0 model0
    (list_to_set (default [] regions)) None None [].

Definition ex_LumpyPage : lumpy_class :=
  {| lumpy_klass := ex_Page;
     default_regions := [Region "main" "Main" false];
     default_content_types :=
       [PlainType ex_TextBlock; TypeWithRegions ex_RichTextBlock ["main"]] |}.

(** All entries of a registrar input, in loop order. *)
Definition declared_entries (types_by_regions : list (string * category_types))
  : list type_entry :=
  flat_map (fun '(region0, cats) =>
              flat_map (fun '(category, types) => types) cats)
           types_by_regions.

Definition is_bare (entry : type_entry) : bool :=
  match entry with
  | BareType _ => true
  | TypeWithKwargs _ _ => false
  end.

Definition entry_type (entry : type_entry) : klass :=
  match entry with
  | BareType t => t
  | TypeWithKwargs t _ => t
  end.

(** The fallback backend after [main.html] of [RichTextBlock] is added. *)
Definition ex_backend_more : backend :=
  Backend (fun q =>
             bool_decide (q = "content_types/cms/textblock/render.html")
             || bool_decide (q = "content_types/cms/richtextblock/main.html"))
          ex_render_to_string.

(** * Properties *)

(** ** Class identity *)

(** Induction over a class together with all of its bases. *)
Lemma klass_bases_ind (P : klass -> Prop) :
  (forall m n me bs, Forall P bs -> P (Klass m n me bs)) ->
  forall k, P k.
Proof.
  intros step. fix IH 1. intros [m n me bs]. apply step.
  induction bs as [|b bs IHbs]; constructor; [apply IH | exact IHbs].
Qed.

Lemma klass_eqb_eq (a b : klass) : klass_eqb a b = true <-> a = b.
Proof.
  revert b. induction a as [m n me bs IHbs] using klass_bases_ind.
  intros [m' n' me' bs']. cbn [klass_eqb].
  rewrite !andb_true_iff, !bool_decide_eq_true.
  match goal with |- ((?all2 bs bs' = true /\ _) /\ _) /\ _ <-> _ =>
    assert (Hall : all2 bs bs' = true <-> bs = bs')
  end.
  { revert bs'. induction IHbs as [|x l Hx _ IHl]; intros [|y l'];
      try (split; [discriminate | congruence]); [tauto|].
    rewrite andb_true_iff, Hx, IHl. split; [intros [-> ->]; done | by inversion 1]. }
  rewrite Hall. split; [intros [[[-> ->] ->] ->]; done | by inversion 1].
Qed.

#[global] Instance klass_eq_dec : EqDecision klass.
Proof.
  intros a b. destruct (klass_eqb a b) eqn:E; [left | right].
  - by apply klass_eqb_eq.
  - intros H. apply klass_eqb_eq in H. congruence.
Defined.

(** *** Properties of the walker *)

Lemma Content_neq_Model : Content <> Model.
Proof. intros H. by apply klass_eqb_eq in H. Qed.

Lemma klass_eqb_refl (k : klass) : klass_eqb k k = true.
Proof. by apply klass_eqb_eq. Qed.

Lemma klass_eqb_neq (a b : klass) : a <> b -> klass_eqb a b = false.
Proof.
  intros H. destruct (klass_eqb a b) eqn:E; [|done].
  by apply klass_eqb_eq in E.
Qed.

Lemma issubclass_refl (k : klass) : issubclass k k = true.
Proof. destruct k; cbn [issubclass]. by rewrite klass_eqb_refl. Qed.

Lemma issubclass_base (k b c : klass) :
  b ∈ __bases__ k -> issubclass b c = true -> issubclass k c = true.
Proof.
  destruct k as [m n me bs]; cbn [__bases__ issubclass].
  intros Hin Hb. apply orb_true_iff; right.
  induction Hin as [b l | b b' l _ IH]; apply orb_true_iff; auto.
Qed.

(** A class whose only base is [Content] is a content type and is not
    [Content] itself. *)
Lemma is_content_base_child (k : klass) :
  __bases__ k = [Content] -> is_content_base k = true.
Proof.
  intros Hk. unfold is_content_base. apply andb_true_iff; split.
  - apply (issubclass_base k Content); [rewrite Hk; set_solver|].
    apply issubclass_refl.
  - apply negb_true_iff, klass_eqb_neq. intros ->. cbn in Hk.
    by inversion Hk.
Qed.

(** The walker, read as a specification: the guarded bases in declared
    order, followed by the walks of those same bases, one after another. *)
Lemma walker_unfold (k : klass) :
  _bases_that_are_content_types k
  = List.filter is_content_base (__bases__ k)
    ++ flat_map _bases_that_are_content_types
         (List.filter is_content_base (__bases__ k)).
Proof.
  destruct k as [m n me bs]; cbn [_bases_that_are_content_types __bases__].
  f_equal; induction bs as [|b bs IH]; try done; cbn [List.filter];
    destruct (is_content_base b); cbn [flat_map app]; by rewrite IH.
Qed.

(** Everything the walker yields passes the guard: it is a strict
    subclass of [Content], so [Content] itself is never yielded. *)
Lemma walker_yields_content_bases (k x : klass) :
  x ∈ _bases_that_are_content_types k -> is_content_base x = true.
Proof.
  revert x. induction k as [m n me bs IH] using klass_bases_ind. intros x.
  rewrite walker_unfold; cbn [__bases__].
  rewrite elem_of_app, !list_elem_of_In, in_flat_map, filter_In.
  intros [[_ H] | (b & [Hb Hg]%filter_In & Hx)]; [done|].
  rewrite Forall_forall in IH. apply (IH b); by apply list_elem_of_In.
Qed.

(** C2. For every class, the walker yields the content-type bases of the
    class in declared order (never [Content] itself), and after them, base
    by base in that same order, everything the walker yields for that base.
    For a linear hierarchy A -> B -> C, where A derives from [Content], B
    from A and the concrete class C from B, the walk of C is B, then A. *)
Theorem walker_order :
  (forall k : klass,
      _bases_that_are_content_types k
      = List.filter is_content_base (__bases__ k)
        ++ flat_map _bases_that_are_content_types
             (List.filter is_content_base (__bases__ k)))
  /\ (forall k x : klass,
        x ∈ _bases_that_are_content_types k -> x <> Content)
  /\ (forall A B C : klass,
        __bases__ A = [Content] -> __bases__ B = [A] -> __bases__ C = [B] ->
        _bases_that_are_content_types C = [B; A]).
Proof.
  split; [exact walker_unfold|]. split.
  - intros k x Hx%walker_yields_content_bases ->.
    unfold is_content_base in Hx. by rewrite klass_eqb_refl, andb_false_r in Hx.
  - intros A B C HA HB HC.
    assert (GA : is_content_base A = true) by by apply is_content_base_child.
    assert (SA : issubclass A Content = true)
      by (by apply andb_true_iff in GA as [? _]).
    assert (GB : is_content_base B = true).
    { unfold is_content_base. apply andb_true_iff; split.
      - apply (issubclass_base B A); [rewrite HB; set_solver | done].
      - apply negb_true_iff, klass_eqb_neq. intros ->.
        cbn in HB. inversion HB as [HM]. rewrite <- HM in HA. by cbn in HA. }
    rewrite (walker_unfold C), HC. cbn [List.filter]. rewrite GB.
    cbn [flat_map app]. rewrite (walker_unfold B), HB. cbn [List.filter].
    rewrite GA. cbn [flat_map app]. rewrite (walker_unfold A), HA.
    cbn [List.filter].
    replace (is_content_base Content) with false by done.
    done.
Qed.

Lemma walker_order_witness :
  _bases_that_are_content_types ex_PageRichTextBlock
  = [ex_RichTextBlock; ex_TextBlock].
Proof.
  apply (proj2 (proj2 walker_order) ex_TextBlock ex_RichTextBlock
           ex_PageRichTextBlock); reflexivity.
Defined.

(** ** Template path resolver *)

Lemma append_assoc (a b c : string) : (a +:+ b) +:+ c = a +:+ (b +:+ c).
Proof.
  induction a as [|x a IH]; [reflexivity|].
  change (String x ((a +:+ b) +:+ c) = String x (a +:+ b +:+ c)).
  by rewrite IH.
Qed.

Lemma render_paths_flat_map (self : chunk) (region0 : string) :
  _render_template_paths self region0
  = flat_map (render_candidates (cls self) region0)
             (_bases_that_are_content_types (cls self)).
Proof.
  unfold _render_template_paths.
  induction (_bases_that_are_content_types (cls self)) as [|b l IH]; [done|].
  cbn [flat_map]. rewrite IH.
  unfold render_candidates, pt1, pt2, pt3, pt4, pt_prefix, _template_params.
  cbn [content_type_defining_app content_model_name content_type_using_app
       content_type_using_model content_type_using_region percent_s app].
  by rewrite !append_assoc.
Qed.

Lemma render_candidates_nonempty (klass0 : klass) (region0 : string)
    (base : klass) :
  Forall (fun q => q <> "") (render_candidates klass0 region0 base).
Proof. unfold render_candidates. repeat constructor; discriminate. Qed.

Lemma render_paths_nonempty (self : chunk) (region0 : string) :
  Forall (fun q => q <> "") (_render_template_paths self region0).
Proof.
  rewrite render_paths_flat_map.
  induction (_bases_that_are_content_types (cls self)) as [|b l IH];
    cbn [flat_map]; [constructor|].
  apply Forall_app; split; [apply render_candidates_nonempty | exact IH].
Qed.


Lemma find_first_template_outcome (be : backend) (paths : list string) :
  Forall (fun q => q <> "") paths ->
  search_outcome be paths (trace_of (find_first_template be paths))
                 (value_of (find_first_template be paths)).
Proof.
  induction 1 as [|p paths Hp _ IH].
  - by apply SearchMiss.
  - cbn [find_first_template]. unfold _detect_template, emit, tret, tbind.
    destruct (template_exists be p) eqn:Ep; cbn [truthy].
    + rewrite bool_decide_eq_false_2 by done. cbn.
      by apply (SearchHit be (p :: paths) [] paths p).
    + destruct (find_first_template be paths) as [t v]. cbn in IH |- *.
      inversion IH as [before after q Hsplit Hbefore Hq Ht Hv | Hall Ht Hv];
        subst.
      * apply (SearchHit be _ (p :: before) after q); auto.
      * apply (SearchMiss be (p :: paths)); auto.
Qed.

(** C3. The render candidates of a chunk are, ancestor by ancestor in walker
    order, the four patterns in their order of specificity.  The resolver
    asks the backend for them in that order and stops at the first one that
    exists, which it returns; when none exists it has asked for all of them
    and returns [None].  If the backend holds only the [render.html] of an
    ancestor's directory, that path is the result. *)
Theorem render_path_resolution (be : backend) (self : chunk)
    (region0 : string) :
  let candidates :=
    flat_map (render_candidates (cls self) region0)
             (_bases_that_are_content_types (cls self)) in
  let run := _find_render_template_path be self region0 in
  _render_template_paths self region0 = candidates
  /\ search_outcome be candidates (trace_of run) (value_of run)
  /\ (forall (base : klass) (appX modelY : string),
         base ∈ _bases_that_are_content_types (cls self) ->
         app_label (_meta base) = appX ->
         model_name (_meta base) = modelY ->
         (forall q, template_exists be q = true
                    <-> q = "content_types/" +:+ appX +:+ "/" +:+ modelY
                            +:+ "/render.html") ->
         value_of run
         = Some ("content_types/" +:+ appX +:+ "/" +:+ modelY
                 +:+ "/render.html")).
Proof.
  intros candidates run.
  assert (Hpaths : _render_template_paths self region0 = candidates)
    by apply render_paths_flat_map.
  assert (Hrun : search_outcome be candidates (trace_of run) (value_of run)).
  { subst run. unfold _find_render_template_path. rewrite <- Hpaths.
    apply find_first_template_outcome, render_paths_nonempty. }
  split; [done|]. split; [done|].
  intros base appX modelY Hbase <- <- Honly.
  inversion Hrun as [before after p Hsplit Hbefore Hp Ht Hv | Hall Ht Hv].
  - by apply Honly in Hp as ->.
  - exfalso. rewrite Forall_forall in Hall.
    set (fallback := "content_types/" +:+ app_label (_meta base) +:+ "/"
                     +:+ model_name (_meta base) +:+ "/render.html") in *.
    assert (Hex : template_exists be fallback = true) by by apply Honly.
    rewrite Hall in Hex; [done|].
    subst candidates. apply list_elem_of_In, in_flat_map. exists base.
    split; [by apply list_elem_of_In|].
    unfold render_candidates. rewrite !append_assoc. cbn. tauto.
Qed.

Lemma render_path_resolution_witness :
  value_of (_find_render_template_path ex_backend_fallback ex_chunk "main")
  = Some "content_types/cms/textblock/render.html".
Proof.
  apply (proj2 (proj2 (render_path_resolution ex_backend_fallback ex_chunk
                         "main")) ex_TextBlock "cms" "textblock").
  - apply list_elem_of_In. vm_compute. right; left; reflexivity.
  - reflexivity.
  - reflexivity.
  - intros q. apply bool_decide_eq_true.
Defined.

(** ** Rendering dispatcher *)







Lemma find_first_template_miss (be : backend) (paths : list string) :
  Forall (fun q => template_exists be q = false) paths ->
  find_first_template be paths = (map GetTemplate paths, None).
Proof.
  induction 1 as [|p paths Hp _ IH]; [done|].
  cbn [find_first_template]. unfold _detect_template, emit, tret, tbind.
  rewrite Hp. cbn [truthy]. by rewrite IH.
Qed.

Lemma find_first_template_hit (be : backend) (paths : list string) :
  Forall (fun q => q <> "") paths ->
  Exists (fun q => template_exists be q = true) paths ->
  truthy (value_of (find_first_template be paths)) = true.
Proof.
  intros Hne Hex.
  destruct (find_first_template_outcome be paths Hne)
    as [before after p Hsplit _ Hp | Hall].
  - cbn. apply negb_true_iff, bool_decide_eq_false_2.
    rewrite Forall_forall in Hne. apply Hne. rewrite Hsplit. set_solver.
  - exfalso. apply Exists_exists in Hex as (q & Hq & Hex).
    rewrite Forall_forall in Hall. by rewrite (Hall q Hq) in Hex.
Qed.

Lemma find_first_template_probes_only (be : backend) (paths : list string) :
  Forall (fun e => exists p, e = GetTemplate p)
         (trace_of (find_first_template be paths)).
Proof.
  induction paths as [|p paths IH]; [constructor|].
  cbn [find_first_template]. unfold _detect_template, emit, tret, tbind.
  destruct (truthy _).
  - cbn. repeat constructor. by exists p.
  - destruct (find_first_template be paths) as [t v]. cbn in *.
    constructor; [by exists p | done].
Qed.

(** The run of [render] when no template can be determined. *)
Lemma render_unresolved (be : backend) (self : chunk)
    (kwargs : render_kwargs) :
  truthy (render_template self) = false ->
  Forall (fun q => template_exists be q = false)
         (_render_template_paths self (region self)) ->
  render be self kwargs
  = (map GetTemplate (_render_template_paths self (region self)),
     Raise (NotImplementedError (no_template_message self))).
Proof.
  intros Hunset Hnone. unfold render, or_else, _find_render_template_path.
  rewrite Hunset, (find_first_template_miss _ _ Hnone).
  unfold tbind, tret. cbn [truthy negb]. by rewrite app_nil_r.
Qed.



(** The template [render] settles on, and the backend calls made to get
    there. *)
Lemma render_resolved_no_request (be : backend) (self : chunk)
    (context : option py_context) :
  let resolution :=
    or_else (render_template self)
            (_find_render_template_path be self (region self)) in
  truthy (value_of resolution) = true ->
  render be self (RenderKwargs None context)
  = (trace_of resolution, Raise (KeyError "request")).
Proof.
  intros resolution Hres. unfold render. fold resolution.
  destruct resolution as [t template]. cbn in Hres.
  unfold tbind, tret. cbn [kw_request]. rewrite Hres. cbn [negb trace_of fst].
  by rewrite app_nil_r.
Qed.

Lemma or_else_probes_only (be : backend) (self : chunk) :
  Forall (fun e => exists p, e = GetTemplate p)
         (trace_of (or_else (render_template self)
                      (_find_render_template_path be self (region self)))).
Proof.
  unfold or_else. destruct (truthy (render_template self)); [constructor|].
  apply find_first_template_probes_only.
Qed.

(** C5. When the chunk has a render template, set on it or found in the
    backend, [render] called without a request raises the error for the
    missing [request] key, and the run never reaches [render_to_string]:
    the only backend calls are the template probes of the resolution. *)
Theorem render_requires_request (be : backend) (self : chunk)
    (context : option py_context) :
  truthy (render_template self) = true
  \/ Exists (fun q => template_exists be q = true)
            (_render_template_paths self (region self)) ->
  let run := render be self (RenderKwargs None context) in
  value_of run = Raise (KeyError "request")
  /\ ~ delegated (trace_of run)
  /\ Forall (fun e => exists p, e = GetTemplate p) (trace_of run).
Proof.
  intros Hres run.
  assert (Hrun : run = (trace_of (or_else (render_template self)
                          (_find_render_template_path be self (region self))),
                        Raise (KeyError "request"))).
  { apply render_resolved_no_request. unfold or_else.
    destruct (truthy (render_template self)) eqn:Hset; [done|].
    destruct Hres as [|Hex]; [done|].
    apply find_first_template_hit; [apply render_paths_nonempty | done]. }
  rewrite Hrun. cbn [value_of trace_of fst snd].
  pose proof (or_else_probes_only be self) as Hprobes.
  split; [done|]. split; [|done].
  intros (template & Hin). rewrite Forall_forall in Hprobes.
  by destruct (Hprobes _ Hin) as (p & ?).
Qed.

Lemma render_requires_request_witness :
  let run := render ex_backend_fallback ex_chunk (RenderKwargs None None) in
  value_of run = Raise (KeyError "request")
  /\ ~ delegated (trace_of run)
  /\ Forall (fun e => exists p, e = GetTemplate p) (trace_of run).
Proof.
  apply (render_requires_request ex_backend_fallback ex_chunk None).
  right. vm_compute. do 7 apply Exists_cons_tl. by apply Exists_cons_hd.
Defined.

(** C10. When the chunk has no render path of its own and the backend has
    none of the candidates, [render] called without a request raises the
    missing-template error and not the error for the missing [request] key:
    the template check comes first. *)
Theorem render_template_check_first (be : backend) (self : chunk)
    (context : option py_context) :
  truthy (render_template self) = false ->
  Forall (fun q => template_exists be q = false)
         (_render_template_paths self (region self)) ->
  value_of (render be self (RenderKwargs None context))
  = Raise (NotImplementedError (no_template_message self))
  /\ value_of (render be self (RenderKwargs None context))
     <> Raise (KeyError "request").
Proof.
  intros Hunset Hnone.
  by rewrite (render_unresolved be self _ Hunset Hnone).
Qed.

Lemma render_template_check_first_witness :
  value_of (render ex_backend_empty ex_chunk (RenderKwargs None None))
  = Raise (NotImplementedError (no_template_message ex_chunk))
  /\ value_of (render ex_backend_empty ex_chunk (RenderKwargs None None))
     <> Raise (KeyError "request").
Proof.
  apply (render_template_check_first ex_backend_empty ex_chunk None).
  - reflexivity.
  - vm_compute. repeat constructor.
Defined.

(** ** Template fields of an instance *)

(** What [__init__] computes, and where it stores it, on an instance that
    does not carry the unmangled guard attribute. *)
Lemma init_fields (be : backend) (self : chunk)
    (includes : option (gmap string (gset string))) :
  attr___templates_initialised self = false ->
  let rt := or_else (render_template self)
              (_find_render_template_path be self (region self)) in
  let at0 := or_else (admin_template self)
               (_find_admin_template_path be self) in
  let self' := fst (value_of (__init__ be self includes)) in
  trace_of (__init__ be self includes) = trace_of rt ++ trace_of at0
  /\ region self' = region self
  /\ render_template self' = value_of rt
  /\ admin_template self' = value_of at0.
Proof.
  intros Hflag rt at0 self'. subst self'. unfold __init__. rewrite Hflag.
  fold rt. fold at0.
  destruct rt as [t1 v1], at0 as [t2 v2]. unfold tbind, tret.
  destruct (_feincms_content_class self), (truthy v2); cbn;
    by rewrite !app_nil_r.
Qed.

(** [render], case by case on what the template resolution gives. *)
Lemma render_cases (be : backend) (self : chunk) (kwargs : render_kwargs) :
  let resolution :=
    or_else (render_template self)
            (_find_render_template_path be self (region self)) in
  render be self kwargs
  = if truthy (value_of resolution) then
      match kw_request kwargs with
      | None => (trace_of resolution, Raise (KeyError "request"))
      | Some req =>
          (trace_of resolution ++ hook_events (extra_context self)
             ++ [RenderToString (default "" (value_of resolution))],
           Return (render_to_string be (default "" (value_of resolution))
                     (render_bindings (extra_context self) req
                        (kw_context kwargs))
                     req))
      end
    else (trace_of resolution,
          Raise (NotImplementedError (no_template_message self))).
Proof.
  intros resolution. unfold render. fold resolution.
  destruct resolution as [tr v]. cbn [value_of trace_of fst snd].
  unfold tbind, tret, emit, flatten, render_bindings, hook_events.
  destruct (truthy v); cbn [negb]; [|by rewrite app_nil_r].
  destruct (kw_request kwargs) as [req|]; [|by rewrite app_nil_r].
  destruct (extra_context self), (has_flatten _); cbn;
    by rewrite ?app_nil_r.
Qed.

(** A search that finds a path finds a non-empty one. *)
Lemma find_render_truthy (be : backend) (self : chunk) (region0 : string) :
  truthy (value_of (_find_render_template_path be self region0))
  = bool_decide (is_Some
                   (value_of (_find_render_template_path be self region0))).
Proof.
  unfold _find_render_template_path.
  pose proof (render_paths_nonempty self region0) as Hne.
  destruct (find_first_template_outcome be _ Hne)
    as [before after p Hsplit _ _ | Hall].
  - rewrite bool_decide_eq_true_2 by eauto. cbn.
    apply negb_true_iff, bool_decide_eq_false_2.
    rewrite Forall_forall in Hne. apply Hne. rewrite Hsplit. set_solver.
  - symmetry. apply bool_decide_eq_false_2. by intros [? ?].
Qed.

(** C8, as the code has it.  For every chunk instance, whatever its class
    defines, the render path and the admin path are computed in [__init__],
    when the instance is made: each one that the class does not set is
    searched in the backend of that moment.  A render path obtained there
    is stored on the instance, and [render] hands it to [render_to_string]
    without asking any backend for a template path, whatever the backend
    holds by then and whatever the class, its bases and its attributes have
    become.  When none was obtained the field stays empty, and every
    [render] searches again, in the backend it is called with and through
    the class hierarchy of that moment, and uses what that search finds. *)
Theorem template_fields_set_at_init (be0 : backend) (klass0 : klass)
    (region0 : string) (crt cat : option string)
    (hook : option (request -> gmap string ctx_value)) (pc : option klass)
    (mangled : bool) (includes : option (gmap string (gset string))) :
  let self := Chunk klass0 region0 crt cat hook pc false mangled in
  let rt := or_else crt (_find_render_template_path be0 self region0) in
  let at0 := or_else cat (_find_admin_template_path be0 self) in
  let made := __init__ be0 self includes in
  let self' := fst (value_of made) in
  trace_of made = trace_of rt ++ trace_of at0
  /\ render_template self' = value_of rt
  /\ admin_template self' = value_of at0
  /\ (forall (be1 : backend) (klass1 : klass)
             (hook1 : option (request -> gmap string ctx_value))
             (pc1 : option klass) (kwargs : render_kwargs),
        truthy (render_template self') = true ->
        let stored := default "" (render_template self') in
        render be1 (after_class_change klass1 hook1 pc1 self') kwargs
        = match kw_request kwargs with
          | None => ([], Raise (KeyError "request"))
          | Some req =>
              (hook_events hook1 ++ [RenderToString stored],
               Return (render_to_string be1 stored
                         (render_bindings hook1 req (kw_context kwargs))
                         req))
          end)
  /\ (forall (be1 : backend) (klass1 : klass)
             (hook1 : option (request -> gmap string ctx_value))
             (pc1 : option klass) (kwargs : render_kwargs),
        truthy (render_template self') = false ->
        let now := after_class_change klass1 hook1 pc1 self' in
        let again := _find_render_template_path be1 now region0 in
        render be1 now kwargs
        = match value_of again with
          | None =>
              (trace_of again,
               Raise (NotImplementedError (no_template_message now)))
          | Some found =>
              match kw_request kwargs with
              | None => (trace_of again, Raise (KeyError "request"))
              | Some req =>
                  (trace_of again ++ hook_events hook1
                     ++ [RenderToString found],
                   Return (render_to_string be1 found
                             (render_bindings hook1 req (kw_context kwargs))
                             req))
              end
          end).
Proof.
  intros self rt at0 made self'.
  destruct (init_fields be0 self includes eq_refl)
    as (Htrace & Hregion & Hrt & Hat).
  fold made in Htrace. fold self' in Hregion, Hrt, Hat.
  cbn [self render_template admin_template region] in Htrace, Hregion, Hrt, Hat.
  fold self in Htrace, Hrt, Hat. fold rt in Htrace, Hrt. fold at0 in Htrace, Hat.
  split; [done|]. split; [done|]. split; [done|]. split.
  - intros be1 klass1 hook1 pc1 kwargs Hset stored.
    rewrite render_cases. unfold or_else.
    cbn [after_class_change render_template extra_context region].
    rewrite Hset. cbn [value_of trace_of tret fst snd]. rewrite Hset.
    by destruct (kw_request kwargs).
  - intros be1 klass1 hook1 pc1 kwargs Hunset now again.
    rewrite render_cases. unfold or_else.
    cbn [now after_class_change render_template extra_context region].
    assert (Hregion' : region self' = region0) by exact Hregion.
    rewrite Hunset, Hregion'. cbv beta iota.
    rewrite (find_render_truthy be1 now region0). fold again.
    destruct (value_of again) as [found|] eqn:Eagain.
    + rewrite bool_decide_eq_true_2 by eauto. done.
    + rewrite bool_decide_eq_false_2 by (by intros [? ?]). done.
Qed.

Lemma template_fields_set_at_init_witness :
  let self' :=
    fst (value_of (__init__ ex_backend_fallback
                     (Chunk ex_PageRichTextBlock "main" None None None None
                            false false) None)) in
  render_template self' = Some "content_types/cms/textblock/render.html"
  /\ render ex_backend_empty
       (after_class_change ex_MixedBlock (Some (fun _ => ∅)) None self')
       (RenderKwargs (Some ex_request) None)
     = ([ExtraContext;
         RenderToString "content_types/cms/textblock/render.html"],
        Return "<rendered content_types/cms/textblock/render.html>").
Proof.
  pose proof (template_fields_set_at_init ex_backend_fallback
                ex_PageRichTextBlock "main" None None None None false None)
    as (_ & Hrt & _ & Hstored & _).
  split; [exact Hrt|].
  exact (Hstored ex_backend_empty ex_MixedBlock (Some (fun _ => ∅)) None
           (RenderKwargs (Some ex_request) None) eq_refl).
Defined.

(** C8, as stated, fails.  An instance made while the backend has no
    template: [__init__] itself asks the backend for all ten candidates
    (eight render paths, two admin paths), so nothing waits for a first
    access; no render path is stored; and each later [render] searches
    again, so that once the backend has gained a template the same instance
    renders with it. *)
Lemma template_fields_lazy_once_counterexample :
  let made := __init__ ex_backend_empty ex_chunk None in
  let self' := fst (value_of made) in
  let kwargs := RenderKwargs (Some ex_request) None in
  length (trace_of made) = 10
  /\ render_template self' = None
  /\ value_of (render ex_backend_empty self' kwargs)
     = Raise (NotImplementedError (no_template_message self'))
  /\ value_of (render ex_backend_fallback self' kwargs)
     = Return "<rendered content_types/cms/textblock/render.html>"
  /\ GetTemplate "content_types/cms/textblock/render.html"
     ∈ trace_of (render ex_backend_fallback self' kwargs).
Proof.
  repeat split; try reflexivity.
  apply list_elem_of_In. vm_compute. tauto.
Qed.

(** ** Registrar: merging the declarations *)

Lemma klass_eqb_spec (a b : klass) : reflect (a = b) (klass_eqb a b).
Proof.
  destruct (klass_eqb a b) eqn:E; constructor.
  - by apply klass_eqb_eq.
  - intros H. apply klass_eqb_eq in H. congruence.
Qed.

Lemma register_entry_declaration (region0 : string)
    (category : option string) (d : ordered_dict) (entry : type_entry) :
  register_entry region0 category d entry
  = register_declaration d (entry_declaration region0 category entry).
Proof. by destruct entry. Qed.

Lemma foldl_flat_map {A B C} (f : A -> C -> A) (g : B -> list C)
    (l : list B) (a : A) :
  foldl f a (flat_map g l) = foldl (fun a x => foldl f a (g x)) a l.
Proof.
  revert a. induction l as [|x l IH]; intros a; [done|].
  cbn [flat_map]. by rewrite foldl_app, IH.
Qed.

Lemma foldl_map {A B C} (f : A -> C -> A) (g : B -> C) (l : list B) (a : A) :
  foldl f a (map g l) = foldl (fun a x => f a (g x)) a l.
Proof. revert a. induction l as [|x l IH]; intros a; [done|]. apply IH. Qed.

Lemma foldl_ext_eq {A B} (f g : A -> B -> A) (l : list B) (a : A) :
  (forall a x, f a x = g a x) -> foldl f a l = foldl g a l.
Proof.
  intros H. revert a. induction l as [|x l IH]; intros a; [done|].
  cbn. by rewrite H, IH.
Qed.

(** The nested loops are one pass over the declarations. *)
Lemma merge_types_declarations
    (types_by_regions : list (string * category_types)) :
  merge_types types_by_regions
  = foldl register_declaration [] (declarations types_by_regions).
Proof.
  unfold merge_types, declarations. rewrite foldl_flat_map.
  apply foldl_ext_eq. intros d [region0 cats]. rewrite foldl_flat_map.
  apply foldl_ext_eq. intros d' [category types]. rewrite foldl_map.
  apply foldl_ext_eq. intros d'' entry. apply register_entry_declaration.
Qed.

(** *** The ordered dictionary *)

Lemma od_contains_get (d : ordered_dict) (k : klass) :
  OrderedDict.contains d k = bool_decide (is_Some (OrderedDict.get d k)).
Proof.
  induction d as [|[k' v] d IH]; cbn [OrderedDict.contains OrderedDict.get].
  - symmetry. apply bool_decide_eq_false_2. by intros [? ?].
  - destruct (klass_eqb k' k); cbn [orb]; [|done].
    symmetry. by apply bool_decide_eq_true_2.
Qed.

Lemma od_get_setitem (d : ordered_dict) (k k' : klass) (v : registration) :
  OrderedDict.get (OrderedDict.setitem d k v) k'
  = if klass_eqb k k' then Some v else OrderedDict.get d k'.
Proof.
  induction d as [|[k0 v0] d IH]; cbn [OrderedDict.setitem OrderedDict.get].
  - done.
  - destruct (klass_eqb_spec k0 k) as [->|Hne]; cbn [OrderedDict.get].
    + by destruct (klass_eqb k k').
    + rewrite IH. destruct (klass_eqb_spec k0 k') as [->|Hne']; [|done].
      destruct (klass_eqb_spec k k') as [->|]; done.
Qed.

Lemma od_get_add_region (d : ordered_dict) (k k' : klass) (r : string) :
  OrderedDict.get (OrderedDict.add_region d k r) k'
  = if klass_eqb k k' then with_region r <$> OrderedDict.get d k
    else OrderedDict.get d k'.
Proof.
  induction d as [|[k0 [[c rs] kw]] d IH];
    cbn [OrderedDict.add_region OrderedDict.get].
  - by destruct (klass_eqb k k').
  - destruct (klass_eqb_spec k0 k) as [->|Hne]; cbn [OrderedDict.get].
    + by destruct (klass_eqb k k').
    + rewrite IH. destruct (klass_eqb_spec k0 k') as [->|Hne'].
      * destruct (klass_eqb_spec k k') as [->|]; done.
      * done.
Qed.

Lemma od_keys_setitem (d : ordered_dict) (k : klass) (v : registration) :
  map fst (OrderedDict.setitem d k v)
  = if OrderedDict.contains d k then map fst d else map fst d ++ [k].
Proof.
  induction d as [|[k0 v0] d IH];
    cbn [OrderedDict.setitem OrderedDict.contains map fst]; [done|].
  destruct (klass_eqb k0 k); cbn [orb map fst]; [done|].
  rewrite IH. by destruct (OrderedDict.contains d k).
Qed.

Lemma od_keys_add_region (d : ordered_dict) (k : klass) (r : string) :
  map fst (OrderedDict.add_region d k r) = map fst d.
Proof.
  induction d as [|[k0 [[c rs] kw]] d IH];
    cbn [OrderedDict.add_region map fst]; [done|].
  destruct (klass_eqb k0 k); cbn [map fst]; by rewrite ?IH.
Qed.

Lemma od_contains_keys (d : ordered_dict) (k : klass) :
  OrderedDict.contains d k = true <-> k ∈ map fst d.
Proof.
  induction d as [|[k0 v0] d IH]; cbn [OrderedDict.contains map fst].
  - split; [done | by intros ?%elem_of_nil].
  - rewrite orb_true_iff, elem_of_cons, IH.
    destruct (klass_eqb_spec k0 k) as [->|Hne]; [tauto|].
    split; [intros [?|?]; [done | tauto] | intros [?|?]; [congruence | tauto]].
Qed.

Lemma occurrences_NoDup (d : ordered_dict) (t : klass) :
  NoDup (map fst d) ->
  occurrences d t = if OrderedDict.contains d t then 1 else 0.
Proof.
  unfold occurrences.
  induction d as [|[k0 v0] d IH]; cbn [map fst]; [done|].
  intros [Hnotin Hnd]%NoDup_cons. specialize (IH Hnd).
  cbn [List.filter OrderedDict.contains fst].
  destruct (klass_eqb_spec k0 t) as [->|Hne]; cbn [orb length]; [|done].
  rewrite IH. destruct (OrderedDict.contains d t) eqn:E; [|done].
  by apply od_contains_keys in E.
Qed.

(** *** One pass over the declarations *)

Lemma get_register_declaration (d : ordered_dict) (decl : declaration)
    (t : klass) :
  OrderedDict.get (register_declaration d decl) t
  = if klass_eqb (decl_type decl) t
    then Some (with_region (decl_region decl)
                 (default (decl_category decl, ∅, decl_kwargs decl)
                          (OrderedDict.get d (decl_type decl))))
    else OrderedDict.get d t.
Proof.
  unfold register_declaration. rewrite od_get_add_region, od_contains_get.
  destruct (klass_eqb_spec (decl_type decl) t) as [<-|Hne].
  - destruct (OrderedDict.get d (decl_type decl)) as [v|] eqn:Eg.
    + rewrite bool_decide_eq_true_2 by eauto. cbn [negb]. by rewrite Eg.
    + rewrite bool_decide_eq_false_2 by (by intros [? ?]). cbn [negb].
      by rewrite od_get_setitem, klass_eqb_refl.
  - destruct (bool_decide _); cbn [negb]; [done|].
    rewrite od_get_setitem. by rewrite (klass_eqb_neq _ _ Hne).
Qed.

Lemma keys_register_declaration (d : ordered_dict) (decl : declaration) :
  map fst (register_declaration d decl)
  = if OrderedDict.contains d (decl_type decl) then map fst d
    else map fst d ++ [decl_type decl].
Proof.
  unfold register_declaration. rewrite od_keys_add_region.
  destruct (OrderedDict.contains d (decl_type decl)) eqn:E; cbn [negb];
    [done|].
  by rewrite od_keys_setitem, E.
Qed.

Lemma keys_NoDup (decls : list declaration) :
  NoDup (map fst (foldl register_declaration [] decls)).
Proof.
  induction decls as [|decl decls IH] using rev_ind; [constructor|].
  rewrite foldl_snoc, keys_register_declaration.
  destruct (OrderedDict.contains _ _) eqn:E; [done|].
  apply NoDup_app. split; [done|]. split; [|apply NoDup_singleton].
  intros k Hk ->%list_elem_of_singleton.
  apply od_contains_keys in Hk. congruence.
Qed.

Lemma first_declaration_snoc (decls : list declaration) (decl : declaration)
    (t : klass) :
  first_declaration (decls ++ [decl]) t
  = match first_declaration decls t with
    | Some d => Some d
    | None => if klass_eqb (decl_type decl) t then Some decl else None
    end.
Proof.
  unfold first_declaration.
  induction decls as [|d decls IH]; cbn [app List.find]; [done|].
  by destruct (klass_eqb (decl_type d) t).
Qed.

Lemma declared_regions_snoc (decls : list declaration) (decl : declaration)
    (t : klass) :
  declared_regions (decls ++ [decl]) t
  = if klass_eqb (decl_type decl) t
    then {[decl_region decl]} ∪ declared_regions decls t
    else declared_regions decls t.
Proof.
  unfold declared_regions. rewrite List.filter_app, map_app, list_to_set_app_L.
  cbn [List.filter]. destruct (klass_eqb (decl_type decl) t); cbn; set_solver.
Qed.

Lemma declared_regions_none (decls : list declaration) (t : klass) :
  first_declaration decls t = None -> declared_regions decls t = ∅.
Proof.
  unfold first_declaration, declared_regions.
  induction decls as [|d decls IH]; cbn [List.find List.filter]; [done|].
  destruct (klass_eqb (decl_type d) t); [done | exact IH].
Qed.

(** The registry after a pass, read through its lookup. *)
Lemma get_after_pass (decls : list declaration) (t : klass) :
  OrderedDict.get (foldl register_declaration [] decls) t
  = (fun d => (decl_category d, declared_regions decls t, decl_kwargs d))
      <$> first_declaration decls t.
Proof.
  induction decls as [|decl decls IH] using rev_ind; [done|].
  rewrite foldl_snoc, get_register_declaration, first_declaration_snoc,
    declared_regions_snoc.
  destruct (klass_eqb_spec (decl_type decl) t) as [<-|Hne].
  - rewrite IH.
    destruct (first_declaration decls (decl_type decl)) as [d0|] eqn:E;
      cbn [fmap option_fmap option_map default with_region]; [done|].
    rewrite (declared_regions_none _ _ E). done.
  - rewrite IH.
    by destruct (first_declaration decls t).
Qed.

Lemma elem_of_declarations
    (types_by_regions : list (string * category_types)) (d : declaration) :
  d ∈ declarations types_by_regions
  <-> exists region0 cats category types entry,
        (region0, cats) ∈ types_by_regions /\ (category, types) ∈ cats
        /\ entry ∈ types /\ d = entry_declaration region0 category entry.
Proof.
  unfold declarations. rewrite list_elem_of_In, in_flat_map. split.
  - intros ([region0 cats] & Hr & Hd). apply in_flat_map in Hd
      as ([category types] & Hc & Hd). apply in_map_iff in Hd
      as (entry & <- & He).
    exists region0, cats, category, types, entry.
    by rewrite !list_elem_of_In.
  - intros (region0 & cats & category & types & entry & Hr & Hc & He & ->).
    exists (region0, cats). split; [by apply list_elem_of_In|].
    apply in_flat_map. exists (category, types).
    split; [by apply list_elem_of_In|].
    apply in_map, list_elem_of_In, He.
Qed.

Lemma elem_of_declared_regions (decls : list declaration) (t : klass)
    (r : string) :
  r ∈ declared_regions decls t
  <-> exists d, d ∈ decls /\ decl_type d = t /\ decl_region d = r.
Proof.
  unfold declared_regions.
  rewrite elem_of_list_to_set, list_elem_of_In, in_map_iff. split.
  - intros (d & <- & [Hd Ht]%filter_In). exists d.
    split; [by apply list_elem_of_In|]. split; [|done].
    by destruct (klass_eqb_spec (decl_type d) t).
  - intros (d & Hd & <- & <-). exists d. split; [done|].
    apply filter_In. split; [by apply list_elem_of_In|].
    apply klass_eqb_refl.
Qed.

Lemma first_declaration_Some (decls : list declaration) (t : klass)
    (d : declaration) :
  first_declaration decls t = Some d
  <-> exists before after,
        decls = before ++ d :: after /\ decl_type d = t
        /\ Forall (fun d' => decl_type d' <> t) before.
Proof.
  unfold first_declaration. induction decls as [|d0 decls IH];
    cbn [List.find].
  - split; [done|]. intros (before & after & H & _). by destruct before.
  - destruct (klass_eqb_spec (decl_type d0) t) as [Heq|Hne]; split.
    + intros [= <-]. by exists [], decls.
    + intros ([|d1 before] & after & Hsplit & Ht & Hall).
      * by inversion Hsplit.
      * inversion Hsplit; subst. by inversion Hall.
    + intros (before & after & -> & Ht & Hall)%IH.
      exists (d0 :: before), after. split; [done|]. split; [done|].
      by constructor.
    + intros ([|d1 before] & after & Hsplit & Ht & Hall).
      * inversion Hsplit; subst. done.
      * inversion Hsplit; subst. apply IH. exists before, after.
        split; [done|]. split; [done|]. by inversion Hall.
Qed.

(** C1. Whatever the regions declare, the merged registry has no type
    twice.  A type that no region declares is absent.  A declared type
    occurs exactly once, and its registration holds the category and the
    kwargs of its first declaration in loop order together with the set of
    all regions that declare it: later declarations add their region and
    nothing else. *)
Theorem merged_registry_invariant
    (types_by_regions : list (string * category_types)) (t : klass) :
  let registry := merge_types types_by_regions in
  let decls := declarations types_by_regions in
  NoDup (map fst registry)
  /\ (forall r : string,
        r ∈ declared_regions decls t
        <-> exists region0 cats category types entry,
              (region0, cats) ∈ types_by_regions /\ (category, types) ∈ cats
              /\ entry ∈ types
              /\ decl_type (entry_declaration region0 category entry) = t
              /\ region0 = r)
  /\ match first_declaration decls t with
     | None =>
         occurrences registry t = 0 /\ OrderedDict.get registry t = None
     | Some first =>
         occurrences registry t = 1
         /\ OrderedDict.get registry t
            = Some (decl_category first, declared_regions decls t,
                    decl_kwargs first)
         /\ (exists before after,
               decls = before ++ first :: after /\ decl_type first = t
               /\ Forall (fun d => decl_type d <> t) before)
     end.
Proof.
  intros registry decls.
  assert (Hreg : registry = foldl register_declaration [] decls)
    by apply merge_types_declarations.
  assert (Hnd : NoDup (map fst registry)) by (rewrite Hreg; apply keys_NoDup).
  assert (Hget : OrderedDict.get registry t
                 = (fun d => (decl_category d, declared_regions decls t,
                              decl_kwargs d)) <$> first_declaration decls t)
    by (rewrite Hreg; apply get_after_pass).
  pose proof (occurrences_NoDup registry t Hnd) as Hocc.
  rewrite od_contains_get, Hget in Hocc.
  split; [done|]. split.
  - intros r. rewrite elem_of_declared_regions. split.
    + intros (d & Hd & Ht & Hr).
      apply elem_of_declarations in Hd
        as (region0 & cats & category & types & entry & ? & ? & ? & ->).
      exists region0, cats, category, types, entry.
      repeat (split; [done|]). by destruct entry.
    + intros (region0 & cats & category & types & entry
              & ? & ? & ? & Ht & <-).
      exists (entry_declaration region0 category entry).
      split; [|split; [done | by destruct entry]].
      apply elem_of_declarations.
      by exists region0, cats, category, types, entry.
  - destruct (first_declaration decls t) as [first|] eqn:Efirst.
    + rewrite bool_decide_eq_true_2 in Hocc by (cbn; eauto).
      split; [done|]. split; [done|]. by apply first_declaration_Some.
    + rewrite bool_decide_eq_false_2 in Hocc by (by intros [? ?]). done.
Qed.

(** The text block of the example is declared in [main] without category
    and again in [sidebar] under [Text] with kwargs: it is registered once,
    for both regions, without category and without kwargs. *)
Example merged_registry_two_regions :
  OrderedDict.get (merge_types ex_types_by_regions) ex_TextBlock
  = Some (None, {[ "main"; "sidebar" ]}, [])
  /\ map fst (merge_types ex_types_by_regions)
     = [ex_TextBlock; ex_RichTextBlock].
Proof. split; vm_compute; reflexivity. Qed.

(** ** Registrar: exposing the created classes *)

(** Binding a name unless it is taken, then offering further bindings, is
    offering them all at once, the earlier one first. *)
Lemma bind_if_absent_union (module rest : gmap string py_object)
    (n : string) (v : py_object) :
  match module !! n with
  | None => <[n := v]> module
  | Some _ => module
  end ∪ rest
  = module ∪ <[n := v]> rest.
Proof.
  apply map_eq. intros i. rewrite !lookup_union.
  destruct (decide (i = n)) as [->|Hne].
  - rewrite lookup_insert_eq.
    destruct (module !! n) as [w|] eqn:E.
    + rewrite ?E. by destruct (rest !! n).
    + rewrite lookup_insert_eq. by destruct (rest !! n).
  - rewrite (lookup_insert_ne rest) by done.
    destruct (module !! n); [done|]. by rewrite lookup_insert_ne.
Qed.


(** A run in which the host answers every call with a class goes through
    the whole registry and leaves the module with the created classes
    added where their names were free. *)
Lemma materialize_all_answers {host : Type}
    (create_content_type :
       host -> klass -> klass -> gset string -> option string ->
       option string -> py_kwargs -> host * result (option klass))
    (feincms_model : document_model) (items : ordered_dict) :
  forall (h h' : host) (news : list klass) (module : gmap string py_object),
    host_answers create_content_type feincms_model h items = Some (news, h') ->
    materialize_all host create_content_type feincms_model h module items
    = ((h', module ∪ list_to_map (created_bindings news)), Return tt).
Proof.
  induction items as [|[t [[og rs] kw]] items IH];
    intros h h' news module Hanswers.
  - cbn in Hanswers. injection Hanswers as <- <-. cbn.
    by rewrite (right_id_L ∅ (∪)).
  - cbn [host_answers] in Hanswers. unfold requested_class_name in Hanswers.
    cbn [materialize_all materialize].
    destruct (create_content_type h (doc_class feincms_model) t rs _ og kw)
      as [h1 [[new_type|]|e]]; try done.
    destruct (host_answers create_content_type feincms_model h1 items)
      as [[news' h'']|] eqn:Hrest; [|done].
    injection Hanswers as <- <-.
    assert (Hstep : forall (A : Type) (k1 k2 : gmap string py_object -> A),
               k1 (<[__name__ new_type := ClassObject new_type]> module)
               = k2 (<[__name__ new_type := ClassObject new_type]> module) ->
               k1 module = k2 module ->
               match
                 match module !! __name__ new_type with
                 | None =>
                     ((h1, <[__name__ new_type
                             := ClassObject new_type]> module), Return tt)
                 | Some _ => ((h1, module), Return tt)
                 end
               with
               | (state, Raise e) => (state, Raise e)
               | ((h2, module2), Return _) =>
                   materialize_all host create_content_type feincms_model
                     h2 module2 items
               end
               = materialize_all host create_content_type feincms_model h1
                   (match module !! __name__ new_type with
                    | None => <[__name__ new_type
                                := ClassObject new_type]> module
                    | Some _ => module
                    end) items).
    { intros. by destruct (module !! __name__ new_type). }
    rewrite (Hstep unit (fun _ => tt) (fun _ => tt)) by done.
    rewrite (IH h1 h'' news' _ Hrest).
    cbn [created_bindings map list_to_map foldr].
    fold (created_bindings news'). by rewrite bind_if_absent_union.
Qed.





(** ** View-backed content *)

(** A dotted path without a dot: [rfind] gives -1, so the module name is
    the path without its last character and the view name the whole path. *)
Example get_view_from_path_no_dot :
  slice_to "latest" (rfind "latest" "."%char) = "lates"
  /\ slice_from "latest" (rfind "latest" "."%char + 1) = "latest"
  /\ slice_to "site.views.latest" (rfind "site.views.latest" "."%char)
     = "site.views"
  /\ slice_from "site.views.latest" (rfind "site.views.latest" "."%char + 1)
     = "latest".
Proof. repeat split. Qed.

(** C7. When looking up the view raises, or the view itself raises, the
    chunk's [render] returns a placeholder paragraph if [settings.DEBUG] is
    off (one text for a failed lookup, another for a failed call) and
    raises that same exception if it is on. *)
Theorem view_render_error_policy (DEBUG : bool)
    (import_module : string -> result (gmap string view))
    (self_view : string) (kwargs : render_kwargs) (e : exn) :
  (ViewContent.get_view_from_path import_module self_view = Raise e ->
   ViewContent.render DEBUG import_module self_view kwargs
   = if DEBUG then Raise e
     else Return "<p>Content could not be found.</p>")
  /\ (forall view0 : view,
        ViewContent.get_view_from_path import_module self_view = Return view0 ->
        view0 (kw_request kwargs) = Raise e ->
        ViewContent.render DEBUG import_module self_view kwargs
        = if DEBUG then Raise e
          else Return "<p>Error rendering content.</p>").
Proof.
  split.
  - intros Hlookup. unfold ViewContent.render. by rewrite Hlookup.
  - intros view0 Hlookup Hcall. unfold ViewContent.render.
    by rewrite Hlookup, Hcall.
Qed.

Lemma view_render_error_policy_witness :
  ViewContent.render false ex_import_module "site.missing.latest"
    (RenderKwargs (Some ex_request) None)
  = Return "<p>Content could not be found.</p>"
  /\ ViewContent.render true ex_import_module "site.views.latest"
       (RenderKwargs (Some ex_request) None)
     = Raise (RuntimeError "boom").
Proof.
  split.
  - apply (proj1 (view_render_error_policy false ex_import_module
                    "site.missing.latest"
                    (RenderKwargs (Some ex_request) None)
                    (ImproperlyConfigured
                       ("Error importing ViewContent module site.missing: "
                        +:+ dquote +:+ "No module named site.missing"
                        +:+ dquote)))).
    reflexivity.
  - apply (proj2 (view_render_error_policy true ex_import_module
                    "site.views.latest"
                    (RenderKwargs (Some ex_request) None)
                    (RuntimeError "boom"))
             (fun _ => Raise (RuntimeError "boom"))); reflexivity.
Defined.

(** ** Hierarchical documents *)

Lemma concat_snoc (sep x : string) (l : list string) :
  String.concat sep (l ++ [x])
  = fold_right (fun a rest => a +:+ sep +:+ rest) x l.
Proof.
  induction l as [|a l IH]; [done|].
  cbn [app fold_right]. rewrite <- IH.
  destruct (l ++ [x]) as [|y l'] eqn:E; [destruct l; discriminate|].
  reflexivity.
Qed.

(** C9. [get_path] joins with slashes the slugs of the nodes that
    [get_ancestors()] returns, in the order returned, followed by the slug
    of the node itself: each ancestor's slug, a slash, and so on down to the
    node's own slug.  Both document base classes define it so. *)
Theorem get_path_slugs (get_ancestors : page -> list page) (self : page) :
  HierarchicalFeinCMSDocument.get_path get_ancestors self
  = String.concat "/" (map slug (get_ancestors self) ++ [slug self])
  /\ HierarchicalFeinCMSDocument.get_path get_ancestors self
     = fold_right (fun ancestor rest => slug ancestor +:+ "/" +:+ rest)
                  (slug self) (get_ancestors self)
  /\ HierarchicalLumpyContent.get_path get_ancestors self
     = HierarchicalFeinCMSDocument.get_path get_ancestors self.
Proof.
  assert (H : HierarchicalFeinCMSDocument.get_path get_ancestors self
              = String.concat "/" (map slug (get_ancestors self) ++ [slug self])).
  { unfold HierarchicalFeinCMSDocument.get_path. by rewrite map_app. }
  split; [done|]. split; [|done].
  rewrite H, concat_snoc. clear H.
  generalize (get_ancestors self). intros l.
  induction l as [|a l IH]; [reflexivity|].
  cbn [map fold_right]. by rewrite IH.
Qed.

Example get_path_three_levels :
  let root := Page "docs" None 1 1 6 in
  let guide := Page "guide" (Some 1%positive) 1 2 5 in
  let intro := Page "intro" (Some 2%positive) 1 3 4 in
  HierarchicalFeinCMSDocument.get_path
    (fun node => if bool_decide (slug node = "intro") then [root; guide]
                 else []) intro
  = "docs/guide/intro".
Proof. reflexivity. Qed.

(** * Further properties *)

(** ** Hierarchy walker *)

Lemma issubclass_ancestor (k x c : klass) :
  proper_ancestor k x -> issubclass x c = true -> issubclass k c = true.
Proof.
  induction 1 as [k b Hb | k b x Hb _ IH]; intros Hx.
  - by apply (issubclass_base k b).
  - apply (issubclass_base k b); auto.
Qed.

Lemma Content_ancestors (x : klass) :
  proper_ancestor Content x -> is_content_base x = false.
Proof.
  assert (Hobj : forall y, ~ proper_ancestor object_ y).
  { intros y Hy. inversion Hy as [? ? Hb | ? ? ? Hb _]; subst;
      cbn in Hb; by apply elem_of_nil in Hb. }
  assert (Hmodel : forall y, proper_ancestor Model y -> y = object_).
  { intros y Hy. inversion Hy as [? ? Hb | ? ? ? Hb Hrest]; subst;
      cbn in Hb; apply list_elem_of_singleton in Hb; subst; [done|].
    by apply Hobj in Hrest. }
  intros Hx. inversion Hx as [? ? Hb | ? ? ? Hb Hrest]; subst;
    cbn in Hb; apply list_elem_of_singleton in Hb; subst; [done|].
  by apply Hmodel in Hrest as ->.
Qed.

(** X1. The walker yields exactly the proper ancestors of the class that
    are subclasses of [Content] other than [Content] itself: nothing else,
    and none of them is missed, however deep. *)
Theorem walker_exact (k x : klass) :
  x ∈ _bases_that_are_content_types k
  <-> proper_ancestor k x /\ is_content_base x = true.
Proof.
  split.
  - intros Hx. split; [|by apply (walker_yields_content_bases k)].
    revert x Hx. induction k as [m n me bs IH] using klass_bases_ind.
    intros x. rewrite walker_unfold; cbn [__bases__].
    rewrite elem_of_app, !list_elem_of_In, in_flat_map, filter_In.
    intros [[Hb _] | (b & [Hb _]%filter_In & Hx)].
    + apply ancestor_base. by apply list_elem_of_In.
    + apply list_elem_of_In in Hb. apply (ancestor_step _ b); [done|].
      rewrite Forall_forall in IH. apply (IH b Hb). by apply list_elem_of_In.
  - intros [Hanc Hx]. induction Hanc as [k b Hb | k b x Hb Hanc IH].
    + rewrite walker_unfold. apply elem_of_app; left.
      apply list_elem_of_In, filter_In. by rewrite <- list_elem_of_In.
    + assert (Hguard : is_content_base b = true).
      { unfold is_content_base. apply andb_true_iff; split.
        - apply (issubclass_ancestor b x); [done|].
          by apply andb_true_iff in Hx as [? _].
        - apply negb_true_iff, klass_eqb_neq. intros ->.
          apply Content_ancestors in Hanc. congruence. }
      rewrite walker_unfold. apply elem_of_app; right.
      apply list_elem_of_In, in_flat_map. exists b. split.
      * apply filter_In. by rewrite <- list_elem_of_In.
      * apply list_elem_of_In. auto.
Qed.

(** X2. In a diamond, where D derives from B and C and both derive from the
    content type A, the walk of D yields A, and with it A's own ancestors,
    once through B and once more through C. *)
Theorem walker_diamond (A B C D : klass) :
  is_content_base A = true ->
  __bases__ B = [A] -> __bases__ C = [A] -> __bases__ D = [B; C] ->
  _bases_that_are_content_types D
  = [B; C] ++ (A :: _bases_that_are_content_types A)
           ++ (A :: _bases_that_are_content_types A).
Proof.
  intros GA HB HC HD.
  assert (Hchild : forall k, __bases__ k = [A] -> is_content_base k = true).
  { intros k Hk. unfold is_content_base. apply andb_true_iff; split.
    - apply (issubclass_base k A); [rewrite Hk; set_solver|].
      by apply andb_true_iff in GA as [? _].
    - apply negb_true_iff, klass_eqb_neq. intros ->. cbn in Hk.
      inversion Hk; subst. done. }
  assert (Hwalk : forall k, __bases__ k = [A] ->
             _bases_that_are_content_types k
             = A :: _bases_that_are_content_types A).
  { intros k Hk. rewrite (walker_unfold k), Hk. cbn [List.filter].
    rewrite GA. cbn [flat_map app]. by rewrite app_nil_r. }
  rewrite (walker_unfold D), HD. cbn [List.filter].
  rewrite (Hchild B HB), (Hchild C HC). cbn [flat_map].
  by rewrite (Hwalk B HB), (Hwalk C HC), app_nil_r.
Qed.

Lemma walker_diamond_witness :
  _bases_that_are_content_types ex_MixedBlock
  = [ex_RichTextBlock; ex_PlainTextBlock; ex_TextBlock; ex_TextBlock].
Proof.
  apply (walker_diamond ex_TextBlock ex_RichTextBlock ex_PlainTextBlock
           ex_MixedBlock); reflexivity.
Defined.

(** ** Admin path resolver *)

Lemma admin_paths_map (self : chunk) :
  _admin_template_paths self
  = map admin_candidate (_bases_that_are_content_types (cls self)).
Proof.
  unfold _admin_template_paths.
  induction (_bases_that_are_content_types (cls self)) as [|b l IH]; [done|].
  cbn [map]. rewrite IH. f_equal.
  unfold admin_candidate, pt_admin, pt_prefix, _template_params.
  cbn [content_type_defining_app content_model_name].
  by rewrite !append_assoc.
Qed.

Lemma admin_paths_nonempty (self : chunk) :
  Forall (fun q => q <> "") (_admin_template_paths self).
Proof.
  rewrite admin_paths_map. apply Forall_forall.
  intros q (b & <- & _)%list_elem_of_In%in_map_iff. discriminate.
Qed.

(** X3. The admin candidates of a chunk are one [admin_init.html] per
    ancestor, in walker order.  The admin resolver asks the backend for them
    in that order and returns the first that exists; when none exists it has
    asked for all of them and returns [None]. *)
Theorem admin_path_resolution (be : backend) (self : chunk) :
  let candidates :=
    map admin_candidate (_bases_that_are_content_types (cls self)) in
  let run := _find_admin_template_path be self in
  _admin_template_paths self = candidates
  /\ search_outcome be candidates (trace_of run) (value_of run).
Proof.
  intros candidates run. split; [apply admin_paths_map|].
  subst run candidates. unfold _find_admin_template_path.
  rewrite <- admin_paths_map.
  apply find_first_template_outcome, admin_paths_nonempty.
Qed.

(** ** Construction of a chunk *)

(** The whole result of [__init__] on an instance that does not carry the
    unmangled guard attribute. *)
Lemma init_value (be : backend) (self : chunk)
    (includes : option (gmap string (gset string))) :
  attr___templates_initialised self = false ->
  let rt := value_of (or_else (render_template self)
                        (_find_render_template_path be self (region self))) in
  let at0 := value_of (or_else (admin_template self)
                         (_find_admin_template_path be self)) in
  value_of (__init__ be self includes)
  = (Chunk (cls self) (region self) rt at0 (extra_context self)
           (_feincms_content_class self) false true,
     match _feincms_content_class self, truthy at0 with
     | Some _, true =>
         Some (<["head" := {[default "" at0]} ∪ head_includes includes]>
                 (default ∅ includes))
     | _, _ => includes
     end).
Proof.
  intros Hflag rt at0. subst rt at0. unfold __init__. rewrite Hflag.
  destruct (or_else (render_template self) _) as [t1 v1].
  destruct (or_else (admin_template self) _) as [t2 v2].
  unfold tbind, tret, value_of, head_includes. cbn [snd].
  destruct (_feincms_content_class self), (truthy v2); by cbn.
Qed.

Lemma head_includes_insert (m : gmap string (gset string))
    (paths : gset string) :
  head_includes (Some (<["head" := paths]> m)) = paths.
Proof.
  unfold head_includes.
  change (default ∅ (Some (<["head" := paths]> m)))
    with (<["head" := paths]> m).
  by rewrite lookup_insert_eq.
Qed.

Lemma init_trace (be : backend) (self : chunk)
    (includes : option (gmap string (gset string))) :
  attr___templates_initialised self = false ->
  trace_of (__init__ be self includes)
  = trace_of (or_else (render_template self)
                (_find_render_template_path be self (region self)))
    ++ trace_of (or_else (admin_template self)
                   (_find_admin_template_path be self)).
Proof.
  intros Hflag. unfold __init__. rewrite Hflag.
  destruct (or_else (render_template self) _) as [t1 v1].
  destruct (or_else (admin_template self) _) as [t2 v2].
  unfold tbind, tret, trace_of.
  destruct (_feincms_content_class self), (truthy v2); cbn;
    by rewrite !app_nil_r.
Qed.

(** X4. [__init__] adds the admin path it settled on to the [head] set of
    the owning content class's [feincms_item_editor_includes], creating the
    attribute and the key when they are missing; every path already in the
    set and every other key stay.  Without an owning content class, or
    without an admin path, the attribute is left exactly as it was. *)
Theorem init_registers_admin_include (be : backend) (klass0 : klass)
    (region0 : string) (crt cat : option string) (pc : option klass)
    (includes : option (gmap string (gset string))) :
  let made :=
    value_of (__init__ be (new_chunk klass0 region0 crt cat pc) includes) in
  let at0 := admin_template (fst made) in
  match pc, truthy at0 with
  | Some _, true =>
      (forall a : string,
          a ∈ head_includes (snd made)
          <-> a = default "" at0 \/ a ∈ head_includes includes)
      /\ (forall slot : string,
            slot <> "head" ->
            default ∅ (snd made) !! slot = default ∅ includes !! slot)
  | _, _ => snd made = includes
  end.
Proof.
  intros made at0. subst at0 made.
  rewrite (init_value be (new_chunk klass0 region0 crt cat pc) includes eq_refl).
  cbn [fst snd admin_template new_chunk _feincms_content_class].
  destruct pc as [parent|]; [|done].
  destruct (truthy _) eqn:Hat; [|done]. split.
  - intros a. rewrite head_includes_insert. set_solver.
  - intros slot Hslot. cbn [from_option id]. by rewrite lookup_insert_ne.
Qed.

Lemma or_else_stable (be : backend) (a : option string)
    (paths : list string) :
  Forall (fun q => q <> "") paths ->
  let v := value_of (or_else a (find_first_template be paths)) in
  or_else v (find_first_template be paths)
  = (if truthy v then [] else trace_of (find_first_template be paths), v).
Proof.
  intros Hne v.
  assert (Hv : v = value_of (or_else a (find_first_template be paths)))
    by done.
  clearbody v. unfold or_else. destruct (truthy v) eqn:E; [done|].
  unfold or_else in Hv. destruct (truthy a) eqn:Ea.
  - cbn in Hv. congruence.
  - subst v. by destruct (find_first_template be paths).
Qed.

(** A falsy value that a search would reproduce means the search finds
    nothing, so it asks for every path. *)
Lemma stored_none_all_probed (be : backend) (v : option string)
    (paths : list string) :
  v = value_of (or_else v (find_first_template be paths)) ->
  truthy v = false ->
  Forall (fun q => q <> "") paths ->
  trace_of (find_first_template be paths) = map GetTemplate paths.
Proof.
  intros Hv Hfalse Hne. unfold or_else in Hv. rewrite Hfalse in Hv.
  destruct (find_first_template_outcome be paths Hne)
    as [before after p Hsplit _ _ | Hall]; [|done].
  exfalso. cbn in Hv. subst v. cbn in Hfalse.
  apply negb_false_iff, bool_decide_eq_true in Hfalse. subst p.
  rewrite Forall_forall in Hne. apply (Hne ""); [|done].
  rewrite Hsplit. set_solver.
Qed.

(** X5. Running [__init__] again on what it produced, with the same
    backend, changes nothing: the same instance and the same includes come
    out.  The second run asks the backend again only for the paths that the
    first run did not obtain. *)
Theorem init_idempotent (be : backend) (klass0 : klass) (region0 : string)
    (crt cat : option string) (pc : option klass)
    (includes : option (gmap string (gset string))) :
  let made :=
    value_of (__init__ be (new_chunk klass0 region0 crt cat pc) includes) in
  let again := __init__ be (fst made) (snd made) in
  value_of again = made
  /\ trace_of again
     = (if truthy (render_template (fst made)) then []
        else map GetTemplate (_render_template_paths (fst made) region0))
       ++ (if truthy (admin_template (fst made)) then []
           else map GetTemplate (_admin_template_paths (fst made))).
Proof.
  intros made again. subst again made.
  set (self := new_chunk klass0 region0 crt cat pc).
  rewrite (init_value be self includes eq_refl).
  cbn [fst snd render_template admin_template].
  set (rt := value_of (or_else (render_template self) _)).
  set (at0 := value_of (or_else (admin_template self) _)).
  set (self1 := Chunk _ _ rt at0 _ _ false true).
  set (inc1 := match _feincms_content_class self, truthy at0 with
               | Some _, true => _ | _, _ => includes end).
  pose proof (or_else_stable be (render_template self)
                (_render_template_paths self (region self))
                (render_paths_nonempty self (region self))) as Hrt.
  pose proof (or_else_stable be (admin_template self)
                (_admin_template_paths self)
                (admin_paths_nonempty self)) as Hat.
  cbn zeta in Hrt, Hat.
  change (value_of (or_else (render_template self) _)) with rt in Hrt.
  change (value_of (or_else (admin_template self) _)) with at0 in Hat.
  split.
  - rewrite (init_value be self1 inc1 eq_refl).
    cbn [cls region render_template admin_template extra_context
         _feincms_content_class self1].
    unfold _find_render_template_path, _find_admin_template_path.
    change (_render_template_paths self1 (region self))
      with (_render_template_paths self (region self)).
    change (_admin_template_paths self1) with (_admin_template_paths self).
    rewrite Hrt, Hat. cbn [value_of snd]. f_equal.
    subst inc1. cbn [self new_chunk _feincms_content_class].
    destruct pc as [parent|]; [|done].
    destruct (truthy at0); [|done]. f_equal.
    rewrite head_includes_insert. cbn [from_option id].
    rewrite insert_insert_eq. f_equal. set_solver.
  - rewrite (init_trace be self1 inc1 eq_refl).
    cbn [render_template admin_template region self1].
    unfold _find_render_template_path, _find_admin_template_path.
    change (_render_template_paths self1 (region self))
      with (_render_template_paths self (region self)).
    change (_admin_template_paths self1) with (_admin_template_paths self).
    rewrite Hrt, Hat. cbn [trace_of fst]. f_equal.
    + destruct (truthy rt) eqn:Er; [done|].
      apply (stored_none_all_probed be rt
               (_render_template_paths self (region self)));
        [by rewrite Hrt | done
                                            | apply render_paths_nonempty].
    + destruct (truthy at0) eqn:Ea; [done|].
      apply (stored_none_all_probed be at0 (_admin_template_paths self));
        [by rewrite Hat | done
                                             | apply admin_paths_nonempty].
Qed.

(** ** Rendering with a request *)

Lemma resolution_truthy (be : backend) (self : chunk) (t : string) :
  value_of (or_else (render_template self)
              (_find_render_template_path be self (region self))) = Some t ->
  truthy (Some t) = true.
Proof.
  unfold or_else. destruct (truthy (render_template self)) eqn:Hset.
  - unfold tret, value_of. cbn [snd]. by intros <-.
  - intros Hfound. unfold _find_render_template_path in Hfound.
    pose proof (render_paths_nonempty self (region self)) as Hne.
    destruct (find_first_template_outcome be _ Hne)
      as [before after p Hsplit _ _ | Hall]; [|done].
    cbn in Hfound. injection Hfound as ->. cbn.
    apply negb_true_iff, bool_decide_eq_false_2.
    rewrite Forall_forall in Hne. apply Hne. rewrite Hsplit. set_solver.
Qed.

(** X6. Called with a request, [render] on a chunk whose template resolves
    to [t] hands [t] to [render_to_string], once, after the probes of the
    resolution and after the [extra_context] hook if the chunk has one.  In
    the bindings it passes, a name bound by the hook has the hook's value;
    otherwise [content] is the chunk itself, and any other name has the
    value of the caller's context. *)
Theorem render_with_request (be : backend) (self : chunk) (req : request)
    (context : option py_context) (t : string) :
  let resolution :=
    or_else (render_template self)
            (_find_render_template_path be self (region self)) in
  value_of resolution = Some t ->
  let run := render be self (RenderKwargs (Some req) context) in
  exists bindings : gmap string ctx_value,
    value_of run = Return (render_to_string be t bindings req)
    /\ trace_of run
       = trace_of resolution
         ++ match extra_context self with
            | Some _ => [ExtraContext]
            | None => []
            end
         ++ [RenderToString t]
    /\ (forall name : string,
          bindings !! name
          = match extra_context self ≫= (fun hook => hook req !! name) with
            | Some v => Some v
            | None =>
                if bool_decide (name = "content") then Some VSelf
                else items (default (PyContext false ∅) context) !! name
            end).
Proof.
  intros resolution Hres run.
  pose proof (resolution_truthy be self t Hres) as Ht.
  set (base := <["content" := VSelf]>
                 (items (default (PyContext false ∅) context))).
  exists (match extra_context self with
          | Some hook => hook req ∪ base
          | None => base
          end).
  subst run. unfold render. fold resolution.
  destruct resolution as [tr v]. cbn in Hres. subst v.
  unfold tbind, tret, emit, flatten. rewrite Ht.
  cbn [negb kw_request kw_context]. fold base.
  split; [|split].
  - destruct (extra_context self), (has_flatten _); reflexivity.
  - destruct (extra_context self), (has_flatten _); cbn;
      by rewrite ?app_nil_r.
  - intros name. destruct (extra_context self) as [hook|]; cbn.
    + rewrite lookup_union.
      destruct (hook req !! name) as [v|] eqn:Eh; cbn.
      * by destruct (base !! name).
      * subst base. case_bool_decide as Hn.
        -- subst name. by rewrite lookup_insert_eq.
        -- rewrite lookup_insert_ne by done.
           by destruct (items _ !! name).
    + subst base. case_bool_decide as Hn.
      * subst name. by rewrite lookup_insert_eq.
      * by rewrite lookup_insert_ne.
Qed.

Lemma render_with_request_witness :
  exists bindings : gmap string ctx_value,
    value_of (render ex_backend_empty ex_chunk_with_hook
                (RenderKwargs (Some ex_request) None))
    = Return "<rendered blocks/rich.html>"
    /\ bindings !! "content" = Some (VStr "other").
Proof.
  destruct (render_with_request ex_backend_empty ex_chunk_with_hook
              ex_request None "blocks/rich.html" eq_refl)
    as (bindings & Hvalue & _ & Hbindings).
  exists bindings. split; [exact Hvalue|].
  rewrite Hbindings. reflexivity.
Defined.

(** ** Registrar: order of the registry *)

Lemma first_occurrences_elem (l : list klass) (x : klass) :
  x ∈ first_occurrences l <-> x ∈ l.
Proof.
  induction l as [|y l IH]; cbn [first_occurrences]; [done|].
  rewrite !elem_of_cons, list_elem_of_In, filter_In, <- list_elem_of_In, IH.
  destruct (klass_eqb_spec x y) as [->|Hne]; [tauto|].
  cbn. split; [tauto|]. intros [?|?]; [done|]. by right.
Qed.

Lemma first_occurrences_snoc (l : list klass) (t : klass) :
  first_occurrences (l ++ [t])
  = if bool_decide (t ∈ l) then first_occurrences l
    else first_occurrences l ++ [t].
Proof.
  induction l as [|x l IH]; [done|].
  cbn [app first_occurrences]. rewrite IH.
  destruct (klass_eqb_spec t x) as [->|Hne].
  - rewrite (bool_decide_eq_true_2 (x ∈ x :: l)) by set_solver.
    case_bool_decide; [done|].
    rewrite List.filter_app. cbn [List.filter].
    by rewrite klass_eqb_refl, app_nil_r.
  - case_bool_decide as Hin.
    + by rewrite bool_decide_eq_true_2 by set_solver.
    + rewrite bool_decide_eq_false_2 by set_solver.
      rewrite List.filter_app. cbn [List.filter].
      by rewrite (klass_eqb_neq _ _ Hne).
Qed.

Lemma keys_after_pass (decls : list declaration) :
  map fst (foldl register_declaration [] decls)
  = first_occurrences (map decl_type decls).
Proof.
  induction decls as [|decl decls IH] using rev_ind; [done|].
  rewrite foldl_snoc, keys_register_declaration, map_app.
  cbn [map]. rewrite first_occurrences_snoc, <- IH.
  destruct (OrderedDict.contains _ _) eqn:E.
  - rewrite bool_decide_eq_true_2; [done|].
    rewrite <- first_occurrences_elem, <- IH. by apply od_contains_keys.
  - rewrite bool_decide_eq_false_2; [done|].
    rewrite <- first_occurrences_elem, <- IH. intros H%od_contains_keys.
    congruence.
Qed.

Lemma registry_keys_order
    (types_by_regions : list (string * category_types)) :
  map fst (merge_types types_by_regions)
  = first_occurrences (map decl_type (declarations types_by_regions)).
Proof. rewrite merge_types_declarations. apply keys_after_pass. Qed.

(** X7. The registry lists the content types in the order in which the
    loops first meet them: the types of the declarations, region by region,
    category by category, each kept where it first occurs. *)
Theorem registry_first_encounter_order
    (types_by_regions : list (string * category_types)) :
  map fst (merge_types types_by_regions)
  = first_occurrences (map decl_type (declarations types_by_regions)).
Proof.
  rewrite merge_types_declarations.
  generalize (declarations types_by_regions). intros decls.
  apply keys_after_pass.
Qed.

(** ** Registrar: calls into the host *)

Section HostCalls.

Context {host : Type}.
Variable create_content_type :
  host -> klass -> klass -> gset string -> option string ->
  option string -> py_kwargs -> host * result (option klass).
Variable feincms_model : document_model.

Lemma materialize_all_app (items1 items2 : ordered_dict) (h : host)
    (module : gmap string py_object) :
  materialize_all host create_content_type feincms_model h module
    (items1 ++ items2)
  = match materialize_all host create_content_type feincms_model h module
            items1 with
    | (state, Raise e) => (state, Raise e)
    | ((h1, module1), Return _) =>
        materialize_all host create_content_type feincms_model h1 module1
          items2
    end.
Proof.
  revert h module. induction items1 as [|item items1 IH]; intros h module;
    [done|].
  cbn [app materialize_all].
  destruct (materialize _ _ _ _ _ _) as [[h1 module1] [[]|e]];
    [apply IH | done].
Qed.

(** One pass on a failing call. *)
Lemma materialize_failure (h h2 : host) (module : gmap string py_object)
    (type0 : klass) (option_group : option string) (regions : gset string)
    (kwargs : py_kwargs) (answer : result (option klass)) (e : exn) :
  create_content_type h (doc_class feincms_model) type0 regions
    (requested_class_name feincms_model type0) option_group kwargs
  = (h2, answer) ->
  failure_of answer = Some e ->
  materialize host create_content_type feincms_model h module
    (type0, (option_group, regions, kwargs))
  = ((h2, module), Raise e).
Proof.
  intros Hcall Hfail. unfold materialize.
  unfold requested_class_name in Hcall. rewrite Hcall.
  destruct answer as [[new_type|]|e']; cbn in Hfail; by simplify_eq.
Qed.

(** One pass under a host that names the classes it returns as requested:
    it does not touch a module in which the name is bound, and if it
    completes the name is bound afterwards. *)
Lemma materialize_named (h : host) (module : gmap string py_object)
    (type0 : klass) (registration0 : registration) :
  host_names_as_requested create_content_type ->
  exists h1 module1 outcome,
    materialize host create_content_type feincms_model h module
      (type0, registration0)
    = ((h1, module1), outcome)
    /\ (forall n v, module !! n = Some v -> module1 !! n = Some v)
    /\ (is_Some (module !! exposed_name feincms_model type0) ->
        module1 = module)
    /\ (outcome = Return tt ->
        is_Some (module1 !! exposed_name feincms_model type0)).
Proof.
  intros Hhost. destruct registration0 as [[og rs] kw]. unfold materialize.
  destruct (create_content_type h (doc_class feincms_model) type0 rs _ og kw)
    as [h1 answer] eqn:Hcall.
  destruct answer as [[new_type|]|e].
  - apply Hhost in Hcall. fold (requested_class_name feincms_model type0)
      in Hcall. fold (exposed_name feincms_model type0) in Hcall.
    rewrite Hcall.
    destruct (module !! exposed_name feincms_model type0) as [v|] eqn:E.
    + exists h1, module, (Return tt). repeat split; eauto.
    + exists h1, (<[exposed_name feincms_model type0
                    := ClassObject new_type]> module), (Return tt).
      split; [done|]. split; [|split].
      * intros n v Hn. rewrite lookup_insert_ne; [done|]. congruence.
      * by intros [? ?].
      * intros _. rewrite lookup_insert_eq. eauto.
  - exists h1, module, (Raise (AttributeError
        "'NoneType' object has no attribute '__name__'")).
    repeat split; eauto. done.
  - exists h1, module, (Raise e). repeat split; eauto. done.
Qed.

Lemma materialize_all_completed (items : ordered_dict) :
  host_names_as_requested create_content_type ->
  forall (h h1 : host) (module module1 : gmap string py_object),
    materialize_all host create_content_type feincms_model h module items
    = ((h1, module1), Return tt) ->
    (forall n v, module !! n = Some v -> module1 !! n = Some v)
    /\ (forall t, t ∈ map fst items ->
                  is_Some (module1 !! exposed_name feincms_model t)).
Proof.
  intros Hhost. induction items as [|[t reg] items IH];
    intros h h1 module module1 Hrun.
  - cbn in Hrun. simplify_eq. split; [done|]. by intros t ?%elem_of_nil.
  - cbn [materialize_all] in Hrun.
    destruct (materialize_named h module t reg Hhost)
      as (h0 & module0 & outcome & Hstep & Hkeep0 & _ & Hbound0).
    rewrite Hstep in Hrun. destruct outcome as [[]|e]; [|done].
    destruct (IH h0 h1 module0 module1 Hrun) as [Hkeep Hbound].
    split; [by auto|]. intros t' [->|Hin]%elem_of_cons; [|by auto].
    destruct (Hbound0 eq_refl) as [v Hv]. exists v. by auto.
Qed.

Lemma materialize_all_bound (items : ordered_dict) :
  host_names_as_requested create_content_type ->
  forall (h : host) (module : gmap string py_object),
    (forall t, t ∈ map fst items ->
               is_Some (module !! exposed_name feincms_model t)) ->
    exists h2 outcome,
      materialize_all host create_content_type feincms_model h module items
      = ((h2, module), outcome).
Proof.
  intros Hhost. induction items as [|[t reg] items IH]; intros h module Hbound.
  - by exists h, (Return tt).
  - cbn [materialize_all].
    destruct (materialize_named h module t reg Hhost)
      as (h0 & module0 & outcome & -> & _ & Hsame & _).
    rewrite (Hsame (Hbound t ltac:(set_solver))).
    destruct outcome as [[]|e]; [|by exists h0, (Raise e)].
    apply IH. intros t' Ht'. apply Hbound. set_solver.
Qed.

End HostCalls.

(** X8. When the host's [create_content_type] raises, or returns [None] so
    that reading the [__name__] of its result raises [AttributeError], the
    registrar raises that exception at that item of the registry.  It
    leaves the module with the bindings of the classes the host returned
    for the items before it and with nothing more, and the host in the
    state in which the failing call left it: the items after it are not
    processed. *)
Theorem registrar_surfaces_host_error {host : Type}
    (create_content_type :
       host -> klass -> klass -> gset string -> option string ->
       option string -> py_kwargs -> host * result (option klass))
    (feincms_model : document_model)
    (content_types_by_region_fn : string -> category_types)
    (h h1 h2 : host) (module : gmap string py_object)
    (created rest : ordered_dict) (news : list klass) (type0 : klass)
    (option_group : option string) (regions : gset string)
    (kwargs : py_kwargs) (answer : result (option klass)) (e : exn) :
  merge_types (map (fun r => (key r, content_types_by_region_fn (key r)))
                   (_feincms_all_regions feincms_model))
  = created ++ (type0, (option_group, regions, kwargs)) :: rest ->
  host_answers create_content_type feincms_model h created
  = Some (news, h1) ->
  create_content_type h1 (doc_class feincms_model) type0 regions
    (requested_class_name feincms_model type0) option_group kwargs
  = (h2, answer) ->
  failure_of answer = Some e ->
  create_content_types host create_content_type feincms_model
    content_types_by_region_fn h module
  = ((h2, module ∪ list_to_map (created_bindings news)), Raise e).
Proof.
  intros Hsplit Hcreated Hcall Hfail. unfold create_content_types.
  rewrite Hsplit, materialize_all_app.
  rewrite (materialize_all_answers create_content_type feincms_model created
             h h1 news module Hcreated).
  cbn [materialize_all].
  by rewrite (materialize_failure create_content_type feincms_model h1 h2 _
                type0 option_group regions kwargs answer e Hcall Hfail).
Qed.

Lemma registrar_surfaces_host_error_witness :
  let created_class :=
    Klass "site.models" "TextBlock" (Meta "site" "textblock" false)
          [ex_TextBlock] in
  create_content_types (list klass) ex_create_content_type
    (FeinCMSDocument.model false ex_Page [Region "main" "Main" false])
    ex_clashing_types [] ∅
  = (([created_class], ∅ ∪ list_to_map (created_bindings [created_class])),
     Raise (AttributeError "'NoneType' object has no attribute '__name__'")).
Proof.
  apply (registrar_surfaces_host_error ex_create_content_type
           (FeinCMSDocument.model false ex_Page [Region "main" "Main" false])
           ex_clashing_types []
           [Klass "site.models" "TextBlock" (Meta "site" "textblock" false)
                  [ex_TextBlock]]
           [Klass "site.models" "TextBlock" (Meta "site" "textblock" false)
                  [ex_TextBlock]]
           ∅
           [(ex_TextBlock, (None, {[ "main" ]}, []))]
           [(ex_RichTextBlock, (None, {[ "main" ]}, []))]
           [Klass "site.models" "TextBlock" (Meta "site" "textblock" false)
                  [ex_TextBlock]]
           ex_BlogTextBlock None {[ "main" ]} [] (Return None)).
  - vm_compute. reflexivity.
  - vm_compute. reflexivity.
  - vm_compute. reflexivity.
  - reflexivity.
Defined.

(** X9. With a host that names the classes it returns as requested, once
    the registrar has completed a run, running it again on the module that
    run left behind changes no binding of that module, from whatever state
    of the host and whether this second run completes or raises: every name
    it could bind is taken. *)
Theorem registrar_second_pass_keeps_module {host : Type}
    (create_content_type :
       host -> klass -> klass -> gset string -> option string ->
       option string -> py_kwargs -> host * result (option klass))
    (feincms_model : document_model)
    (content_types_by_region_fn : string -> category_types)
    (h h1 h1' : host) (module module1 : gmap string py_object) :
  host_names_as_requested create_content_type ->
  create_content_types host create_content_type feincms_model
    content_types_by_region_fn h module
  = ((h1, module1), Return tt) ->
  exists h2 outcome,
    create_content_types host create_content_type feincms_model
      content_types_by_region_fn h1' module1
    = ((h2, module1), outcome).
Proof.
  intros Hhost Hfirst. unfold create_content_types in *.
  apply (materialize_all_bound create_content_type feincms_model _ Hhost).
  by apply (materialize_all_completed create_content_type feincms_model _
              Hhost h h1 module module1).
Qed.

Lemma ex_host_names_as_requested :
  host_names_as_requested ex_create_content_type.
Proof.
  intros h cls0 model0 regions class_name optgroup kwargs h' new_type.
  unfold ex_create_content_type.
  destruct (negb _); [done|]. destruct (existsb _ _); [done|].
  by intros [= _ <-].
Qed.

Lemma registrar_second_pass_keeps_module_witness :
  let first :=
    create_content_types (list klass) ex_create_content_type
      (FeinCMSDocument.model true ex_Page ex_regions)
      ex_content_types_by_region [] ∅ in
  exists h2 outcome,
    create_content_types (list klass) ex_create_content_type
      (FeinCMSDocument.model true ex_Page ex_regions)
      ex_content_types_by_region (fst (fst first)) (snd (fst first))
    = ((h2, snd (fst first)), outcome).
Proof.
  intros first.
  apply (registrar_second_pass_keeps_module ex_create_content_type
           (FeinCMSDocument.model true ex_Page ex_regions)
           ex_content_types_by_region [] (fst (fst first)) (fst (fst first))
           ∅ (snd (fst first)) ex_host_names_as_requested).
  vm_compute. reflexivity.
Defined.



(** ** View lookup by dotted path *)

Lemma string_length_append (a b : string) :
  String.length (a +:+ b) = String.length a + String.length b.
Proof.
  induction a as [|x a IH]; [done|].
  change (S (String.length (a +:+ b)) = S (String.length a + String.length b)).
  by rewrite IH.
Qed.

Lemma substring_all (s : string) : substring 0 (String.length s) s = s.
Proof. induction s as [|x s IH]; [done|]. cbn. by rewrite IH. Qed.

Lemma substring_prefix (a b : string) :
  substring 0 (String.length a) (a +:+ b) = a.
Proof.
  induction a as [|x a IH]; [by destruct b|].
  change (String x (substring 0 (String.length a) (a +:+ b)) = String x a).
  by rewrite IH.
Qed.

Lemma substring_skip (a b : string) (n : nat) :
  substring (String.length a) n (a +:+ b) = substring 0 n b.
Proof. induction a as [|x a IH]; [done|]. exact IH. Qed.

Lemma rfind_from_absent (s : string) (c : ascii) (i last : Z) :
  c ∉ list_ascii_of_string s -> rfind_from s c i last = last.
Proof.
  revert i last. induction s as [|x s IH]; intros i last Hc; [done|].
  cbn [list_ascii_of_string] in Hc. apply not_elem_of_cons in Hc as [Hne Hc].
  cbn [rfind_from]. rewrite IH by done.
  destruct (Ascii.eqb_spec x c); congruence.
Qed.

Lemma rfind_from_append (a b : string) (c : ascii) (i last : Z) :
  rfind_from (a +:+ b) c i last
  = rfind_from b c (i + Z.of_nat (String.length a)) (rfind_from a c i last).
Proof.
  revert i last. induction a as [|x a IH]; intros i last.
  - cbn. by rewrite Z.add_0_r.
  - change (rfind_from (a +:+ b) c (i + 1) (if Ascii.eqb x c then i else last)
            = rfind_from b c (i + Z.of_nat (S (String.length a)))
                (rfind_from a c (i + 1) (if Ascii.eqb x c then i else last))).
    rewrite IH. f_equal. lia.
Qed.

(** Where the last dot of [module.view_name] is. *)
Lemma rfind_last_dot (module view_name : string) :
  no_dot view_name ->
  rfind (module +:+ "." +:+ view_name) "."
  = Z.of_nat (String.length module).
Proof.
  intros Hn. unfold rfind. rewrite rfind_from_append.
  change ("." +:+ view_name) with (String "." view_name).
  cbn [rfind_from]. rewrite rfind_from_absent by done. cbn. lia.
Qed.

(** X11. For a path [module.view_name] whose last part has no dot,
    [get_view_from_path] imports exactly [module] and reads exactly the
    attribute [view_name]: it returns that attribute when both exist, and
    raises [ImproperlyConfigured] when the import raises [ImportError] or
    the module lacks the attribute. *)
Theorem get_view_from_path_dotted
    (import_module : string -> result (gmap string view))
    (module view_name : string) :
  no_dot view_name ->
  let found :=
    ViewContent.get_view_from_path import_module
      (module +:+ "." +:+ view_name) in
  found = lookup_view import_module module view_name
  /\ (forall mod0 view0,
        import_module module = Return mod0 ->
        mod0 !! view_name = Some view0 -> found = Return view0)
  /\ (forall mod0,
        import_module module = Return mod0 ->
        mod0 !! view_name = None ->
        exists msg, found = Raise (ImproperlyConfigured msg))
  /\ (forall e,
        import_module module = Raise (ImportError e) ->
        exists msg, found = Raise (ImproperlyConfigured msg)).
Proof.
  intros Hn found.
  assert (Hfound : found = lookup_view import_module module view_name).
  { subst found. unfold ViewContent.get_view_from_path, lookup_view.
    rewrite (rfind_last_dot module view_name Hn).
    set (path := module +:+ "." +:+ view_name).
    assert (Hlen : String.length path
                   = String.length module + S (String.length view_name)).
    { subst path. by rewrite string_length_append. }
    assert (Hto : slice_to path (Z.of_nat (String.length module)) = module).
    { unfold slice_to, slice_index. rewrite Hlen.
      destruct (Z.ltb_spec (Z.of_nat (String.length module)) 0); [lia|].
      rewrite Z.min_l by lia. rewrite Nat2Z.id. apply substring_prefix. }
    assert (Hfrom : slice_from path (Z.of_nat (String.length module) + 1)
                    = view_name).
    { unfold slice_from, slice_index. rewrite Hlen.
      destruct (Z.ltb_spec (Z.of_nat (String.length module) + 1) 0); [lia|].
      rewrite Z.min_l by lia.
      replace (Z.to_nat (Z.of_nat (String.length module) + 1))
        with (String.length module + 1) by lia.
      replace (String.length module + S (String.length view_name)
               - (String.length module + 1))
        with (String.length view_name) by lia.
      subst path.
      replace (String.length module + 1)
        with (String.length (module +:+ ".")) by
        (rewrite string_length_append; done).
      rewrite <- append_assoc, substring_skip. apply substring_all. }
    by rewrite Hto, Hfrom. }
  split; [done|]. rewrite Hfound. unfold lookup_view. split; [|split].
  - intros mod0 view0 Himport Hattr. by rewrite Himport, Hattr.
  - intros mod0 Himport Hattr. rewrite Himport, Hattr. by eexists.
  - intros e Himport. rewrite Himport. by eexists.
Qed.

Lemma get_view_from_path_dotted_witness :
  exists view0,
    ViewContent.get_view_from_path ex_import_module "site.views.hello"
    = Return view0
    /\ view0 None = Return (HttpResponse_ "<p>Hello</p>").
Proof.
  assert (Hn : no_dot "hello").
  { unfold no_dot. vm_compute. intros H.
    repeat (apply elem_of_cons in H as [H|H]; [discriminate|]).
    by apply elem_of_nil in H. }
  exists (fun _ => Return (HttpResponse_ "<p>Hello</p>")).
  split; [|reflexivity].
  eapply (proj1 (proj2 (get_view_from_path_dotted ex_import_module
                          "site.views" "hello" Hn))); reflexivity.
Defined.

(** X12. For a path without any dot, [rfind] answers -1 and the slices
    wrap around: the module that is imported is the path without its last
    character, and the attribute that is read is the whole path. *)
Theorem get_view_from_path_without_dot
    (import_module : string -> result (gmap string view)) (path : string) :
  no_dot path ->
  ViewContent.get_view_from_path import_module path
  = lookup_view import_module (all_but_last path) path.
Proof.
  intros Hn. unfold ViewContent.get_view_from_path, lookup_view.
  unfold rfind. rewrite rfind_from_absent by done.
  assert (Hto : slice_to path (-1) = all_but_last path).
  { unfold slice_to, slice_index, all_but_last. cbn [Z.ltb Z.compare].
    f_equal. lia. }
  assert (Hfrom : slice_from path (-1 + 1) = path).
  { unfold slice_from, slice_index. change (-1 + 1)%Z with 0%Z.
    change (0 <? 0)%Z with false. cbv beta iota.
    rewrite Z.min_l by lia. change (Z.to_nat 0) with 0.
    rewrite Nat.sub_0_r. apply substring_all. }
  by rewrite Hto, Hfrom.
Qed.

Lemma get_view_from_path_without_dot_witness :
  ViewContent.get_view_from_path ex_import_module "latest"
  = lookup_view ex_import_module "lates" "latest".
Proof.
  apply (get_view_from_path_without_dot ex_import_module "latest").
  unfold no_dot. vm_compute. intros H.
  repeat (apply elem_of_cons in H as [H|H]; [discriminate|]).
  by apply elem_of_nil in H.
Defined.

(** ** Legacy documents *)

Lemma lookup_list_to_map_find (bindings : list (string * py_object))
    (n : string) :
  (list_to_map bindings : gmap string py_object) !! n
  = snd <$> List.find (fun b => bool_decide (fst b = n)) bindings.
Proof.
  induction bindings as [|[n0 v] bindings IH]; [done|].
  cbn [list_to_map foldr List.find fst].
  case_bool_decide as Hn.
  - subst n. by rewrite lookup_insert_eq.
  - rewrite lookup_insert_ne by done. exact IH.
Qed.

Lemma register_defaults_answers {host : Type}
    (create_content_type :
       host -> klass -> klass -> option (list string) ->
       host * result (option klass))
    (cls0 : lumpy_class) (entries : list default_content_type) :
  forall (h h' : host) (answers : list (option klass))
         (module : gmap string py_object),
    legacy_answers create_content_type cls0 h entries = Some (answers, h') ->
    LumpyContent.register_defaults host create_content_type cls0 h module
      entries
    = ((h', module ∪ list_to_map (legacy_bindings cls0 entries answers)),
       Return tt).
Proof.
  induction entries as [|entry entries IH]; intros h h' answers module Hans.
  - cbn in Hans. injection Hans as <- <-. cbn.
    by rewrite (right_id_L ∅ (∪)).
  - cbn [legacy_answers] in Hans.
    cbn [LumpyContent.register_defaults]. unfold LumpyContent.register_default.
    assert (Hcall :
      (let '(content_type, regions_kwarg) :=
         match entry with
         | PlainType t => (t, None)
         | TypeWithRegions t regions => (t, Some regions)
         end in
       create_content_type h (lumpy_klass cls0) content_type regions_kwarg)
      = create_content_type h (lumpy_klass cls0) (default_entry_type entry)
          (match entry with
           | PlainType _ => None
           | TypeWithRegions _ regions => Some regions
           end)) by by destruct entry.
    destruct (create_content_type h (lumpy_klass cls0)
                (default_entry_type entry) _) as [h1 [answer|e]] eqn:Ecall;
      [|done].
    destruct (legacy_answers create_content_type cls0 h1 entries)
      as [[answers' h'']|] eqn:Hrest; [|done].
    injection Hans as <- <-.
    specialize (IH h1 h'' answers').
    cbn [legacy_bindings zip_with]. fold (legacy_bindings cls0 entries answers').
    cbn [list_to_map foldr]. rewrite <- bind_if_absent_union.
    unfold legacy_name at 1 2.
    destruct entry as [t|t rs]; cbn [default_entry_type] in *;
      rewrite Ecall; destruct (module !! _); by rewrite IH.
Qed.

(** X14. The legacy [_register] does nothing for an abstract class.  For a
    concrete class, in a run in which no call of the host raises, it sets
    the regions to [default_regions] and offers to the module, for each
    default content type in turn, what the host returned for it (the new
    class, or [None]) under the document class name followed by the content
    type name, whatever the host called the new class: a name the module
    already has keeps its binding, any other such name is bound to what the
    host returned for the first default content type of that name, and
    nothing else in the module changes. *)
Theorem legacy_register_binds_synthetic_names {host : Type}
    (create_content_type :
       host -> klass -> klass -> option (list string) ->
       host * result (option klass))
    (cls0 : lumpy_class) (all_regions : option (list region_descriptor))
    (h : host) (module : gmap string py_object) :
  if abstract (_meta (lumpy_klass cls0)) then
    LumpyContent._register host create_content_type cls0 all_regions h module
    = ((all_regions, h, module), Return tt)
  else
    forall (answers : list (option klass)) (h' : host),
      legacy_answers create_content_type cls0 h (default_content_types cls0)
      = Some (answers, h') ->
      let offered :=
        legacy_bindings cls0 (default_content_types cls0) answers in
      let module' := module ∪ list_to_map offered in
      LumpyContent._register host create_content_type cls0 all_regions h
        module
      = ((Some (default_regions cls0), h', module'), Return tt)
      /\ (forall n v, module !! n = Some v -> module' !! n = Some v)
      /\ (forall n,
            module !! n = None ->
            module' !! n
            = snd <$> List.find (fun b => bool_decide (fst b = n)) offered).
Proof.
  unfold LumpyContent._register.
  destruct (abstract (_meta (lumpy_klass cls0))); cbn [negb]; [done|].
  intros answers h' Hanswers. cbv zeta.
  rewrite (register_defaults_answers create_content_type cls0 _ h h' answers
             module Hanswers).
  split; [done|]. split.
  - intros n v Hn. by apply lookup_union_Some_l.
  - intros n Hn. by rewrite lookup_union_r, lookup_list_to_map_find.
Qed.

Lemma legacy_register_binds_synthetic_names_witness :
  let text :=
    Klass "site.models" "TextBlock" (Meta "site" "textblock" false)
          [ex_TextBlock] in
  let rich :=
    Klass "site.models" "RichTextBlock" (Meta "site" "richtextblock" false)
          [ex_RichTextBlock] in
  LumpyContent._register (list klass) ex_legacy_create_content_type
    ex_LumpyPage None [] ∅
  = ((Some [Region "main" "Main" false], [text; rich],
      ∅ ∪ list_to_map [("PageTextBlock", ClassObject text);
                       ("PageRichTextBlock", ClassObject rich)]),
     Return tt).
Proof.
  intros text rich.
  pose proof (legacy_register_binds_synthetic_names
                ex_legacy_create_content_type ex_LumpyPage None [] ∅) as H.
  cbn [abstract _meta lumpy_klass ex_LumpyPage ex_Page] in H.
  refine (proj1 (H [Some text; Some rich] [text; rich] _)).
  vm_compute. reflexivity.
Defined.

(** ** Used content types *)

Lemma set_union_bare (r : class_set) (types : list type_entry) :
  set_union r types
  = if forallb is_bare types
    then Hashed (foldl set_add r (map entry_type types))
    else Unhashable.
Proof.
  revert r. induction types as [|[t|t kw] types IH]; intros r; [done| |done].
  cbn [set_union forallb is_bare map foldl entry_type andb]. apply IH.
Qed.

Lemma union_categories_bare (r : class_set) (categories : category_types) :
  UsedContentTypes.union_categories r categories
  = if forallb is_bare (flat_map snd categories)
    then Hashed (foldl set_add r (map entry_type (flat_map snd categories)))
    else Unhashable.
Proof.
  revert r. induction categories as [|[c types] categories IH]; intros r;
    [done|].
  cbn [UsedContentTypes.union_categories flat_map snd].
  rewrite set_union_bare, forallb_app, map_app, foldl_app.
  destruct (forallb is_bare types); cbn [andb]; [apply IH | done].
Qed.

Lemma declared_entries_cons (reg : string) (categories : category_types)
    (lxr : list (string * category_types)) :
  declared_entries ((reg, categories) :: lxr)
  = flat_map snd categories ++ declared_entries lxr.
Proof.
  reflexivity.
Qed.

Lemma union_regions_bare (r : class_set)
    (lxr : list (string * category_types)) :
  UsedContentTypes.union_regions r lxr
  = if forallb is_bare (declared_entries lxr)
    then Hashed (foldl set_add r (map entry_type (declared_entries lxr)))
    else Unhashable.
Proof.
  revert r. induction lxr as [|[reg categories] lxr IH]; intros r; [done|].
  cbn [UsedContentTypes.union_regions]. rewrite declared_entries_cons.
  rewrite union_categories_bare, forallb_app, map_app, foldl_app.
  destruct (forallb is_bare (flat_map snd categories)); cbn [andb];
    [apply IH | done].
Qed.

Lemma set_add_elem (r : class_set) (t x : klass) :
  x ∈ set_add r t <-> x ∈ r \/ x = t.
Proof.
  unfold set_add. destruct (existsb _ r) eqn:E.
  - apply existsb_exists in E as (y & Hy & Heq).
    apply klass_eqb_eq in Heq as ->. apply list_elem_of_In in Hy.
    split; [tauto | by intros [?| ->]].
  - rewrite elem_of_app, list_elem_of_singleton. tauto.
Qed.

Lemma set_add_NoDup (r : class_set) (t : klass) :
  NoDup r -> NoDup (set_add r t).
Proof.
  intros Hr. unfold set_add. destruct (existsb _ r) eqn:E; [done|].
  apply NoDup_app. split; [done|]. split; [|apply NoDup_singleton].
  intros x Hx ->%list_elem_of_singleton.
  assert (existsb (fun y => klass_eqb y t) r = true); [|congruence].
  apply existsb_exists. exists t. split; [by apply list_elem_of_In|].
  apply klass_eqb_refl.
Qed.

Lemma foldl_set_add (l : list klass) (r : class_set) :
  NoDup r ->
  NoDup (foldl set_add r l)
  /\ forall x, x ∈ foldl set_add r l <-> x ∈ r \/ x ∈ l.
Proof.
  revert r. induction l as [|t l IH]; intros r Hr.
  - split; [done|]. intros x. rewrite elem_of_nil. tauto.
  - cbn [foldl]. destruct (IH (set_add r t) (set_add_NoDup r t Hr))
      as [Hnd Hel].
    split; [done|]. intros x. rewrite Hel, set_add_elem, elem_of_cons. tauto.
Qed.

Lemma declared_entry_types (types_by_regions : list (string * category_types)) :
  map decl_type (declarations types_by_regions)
  = map entry_type (declared_entries types_by_regions).
Proof.
  unfold declarations, declared_entries.
  induction types_by_regions as [|[reg cats] lxr IH]; [done|].
  cbn [flat_map]. rewrite !map_app, IH. f_equal.
  induction cats as [|[c types] cats IHc]; [done|].
  cbn [flat_map]. rewrite !map_app, IHc. f_equal.
  rewrite map_map. apply map_ext. by intros [t|t kw].
Qed.

(** X15. When every declared entry is a bare content type,
    [get_used_content_types] returns a set with exactly the content types
    that the registrar registers for the same declarations.  When some
    entry is a pair of a type and kwargs, the form the registrar accepts,
    building the set fails: the pair is added as it is and cannot be
    hashed. *)
Theorem used_content_types_match_registry (feincms_model : document_model)
    (content_types_by_region : string -> category_types) :
  let lxr :=
    UsedContentTypes._get_content_types_by_region feincms_model
      content_types_by_region in
  let used :=
    UsedContentTypes.get_used_content_types feincms_model
      content_types_by_region in
  if forallb is_bare (declared_entries lxr) then
    exists r, used = Hashed r /\ NoDup r
              /\ forall t, t ∈ r <-> t ∈ map fst (merge_types lxr)
  else used = Unhashable.
Proof.
  intros lxr used. subst used.
  unfold UsedContentTypes.get_used_content_types. fold lxr.
  rewrite union_regions_bare.
  destruct (forallb is_bare (declared_entries lxr)); [|done].
  destruct (foldl_set_add (map entry_type (declared_entries lxr)) [])
    as [Hnd Hel]; [constructor|].
  eexists. split; [done|]. split; [done|].
  intros t. rewrite Hel, registry_keys_order, first_occurrences_elem,
    declared_entry_types, elem_of_nil. tauto.
Qed.

(** ** Precedence of the render candidates *)

(** X16. Adding templates to the backend can only move the resolved render
    path towards the front of the candidate list: if a path is resolved
    with one backend, then with any backend that has at least the same
    templates the resolver still finds a path, one that stands at or before
    a place of the earlier result among the candidates, after having asked
    only for candidates that this backend lacks. *)
Theorem resolution_prefers_earlier_candidates (be be' : backend)
    (self : chunk) (region0 : string) (p : string) :
  (forall q, template_exists be q = true -> template_exists be' q = true) ->
  value_of (_find_render_template_path be self region0) = Some p ->
  exists p' before after,
    value_of (_find_render_template_path be' self region0) = Some p'
    /\ _render_template_paths self region0 = before ++ p' :: after
    /\ Forall (fun q => template_exists be' q = false) before
    /\ p ∈ p' :: after.
Proof.
  intros Hmore Hfound. unfold _find_render_template_path in *.
  pose proof (render_paths_nonempty self region0) as Hne.
  destruct (find_first_template_outcome be _ Hne)
    as [before0 after0 p0 Hsplit0 _ Hp0 | Hall0]; [|done].
  cbn in Hfound. injection Hfound as ->.
  destruct (find_first_template_outcome be' _ Hne)
    as [before after p' Hsplit Hbefore Hp' | Hall].
  - exists p', before, after. split; [done|]. split; [done|].
    split; [done|].
    assert (Hin : p ∈ before ++ p' :: after).
    { rewrite <- Hsplit, Hsplit0. set_solver. }
    apply elem_of_app in Hin as [Hin|Hin]; [|done].
    rewrite Forall_forall in Hbefore. apply Hbefore in Hin.
    apply Hmore in Hp0. congruence.
  - exfalso. rewrite Forall_forall in Hall.
    apply Hmore in Hp0. rewrite Hall in Hp0; [done|].
    rewrite Hsplit0. set_solver.
Qed.

Lemma resolution_prefers_earlier_candidates_witness :
  exists p' before after,
    value_of (_find_render_template_path ex_backend_more ex_chunk "main")
    = Some p'
    /\ _render_template_paths ex_chunk "main" = before ++ p' :: after
    /\ Forall (fun q => template_exists ex_backend_more q = false) before
    /\ "content_types/cms/textblock/render.html" ∈ p' :: after.
Proof.
  apply (resolution_prefers_earlier_candidates ex_backend_fallback
           ex_backend_more ex_chunk "main").
  - intros q Hq. cbn in Hq |- *. by rewrite Hq.
  - reflexivity.
Defined.
